(** * bluelinky, Australian vehicle: status normalisation, rate tracking,
      charge targets and trip queries

    A shallow embedding of [src/vehicles/australia.vehicle.ts].  The class
    [AustraliaVehicle] talks to the vendor through an HTTP service and turns
    the JSON bodies it receives into the library's own status, trip and
    report shapes.  The embedding follows the TypeScript text:

    - JSON payloads are values of [value]; objects are finite maps from
      property names to values;
    - JavaScript Numbers are kept abstract behind the interface [JsNumber],
      which lists the operations the program uses together with the facts
      about them that the proofs need; every theorem therefore holds for
      IEEE doubles as well as for the integer instance [znum] on which the
      examples are evaluated;
    - an expression that can throw returns a [result]; the methods of the
      class, which read and write the fields of the vehicle handle and call
      the HTTP service, live in the state-and-error monad [M];
    - what the file imports from modules of the repository that are not part
      of the sources at hand ([../constants], [../util],
      [../tools/common.tools]) is gathered in the interface [Imports]. *)

From Stdlib Require Import ZArith QArith Qcanon String Ascii List Bool Lia.
From stdpp Require Import numbers gmap strings list fin_maps pretty.

Set Warnings "-register-all".
Local Open Scope string_scope.

(** ** Decimal digit strings *)

Definition is_digit (c : ascii) : bool :=
  (48 <=? nat_of_ascii c)%nat && (nat_of_ascii c <=? 57)%nat.

Definition digit_value (c : ascii) : Z := Z.of_nat (nat_of_ascii c) - 48.

Fixpoint all_digits (s : string) : bool :=
  match s with
  | EmptyString => true
  | String c s' => is_digit c && all_digits s'
  end.

Fixpoint decimal_acc (acc : Z) (s : string) : Z :=
  match s with
  | EmptyString => acc
  | String c s' => decimal_acc (10 * acc + digit_value c) s'
  end.

(** The integer a string of decimal digits denotes. *)
Definition decimal_value (s : string) : Z := decimal_acc 0 s.

(** ** JavaScript Numbers *)

(** The integers a double represents exactly ([Number.MAX_SAFE_INTEGER]). *)
Definition safe_integer (z : Z) : Prop := (Z.abs z <= 9007199254740991)%Z.

(** The largest time value of a [Date], in milliseconds. *)
Definition max_time_value : Z := 8640000000000000.

(** The Number operations the program relies on.  The laws are those of
    ECMAScript Numbers restricted to exactly representable integers. *)
Class JsNumber (num : Type) : Type := {
  num_of_Z : Z -> num;                 (* the value of an integer literal *)
  num_NaN : num;
  num_add : num -> num -> num;         (* Number::add *)
  num_mul : num -> num -> num;         (* Number::multiply *)
  num_equal : num -> num -> bool;      (* Number::equal, the === of Numbers *)
  num_lessThan : num -> num -> bool;   (* Number::lessThan, false on NaN *)
  num_ToBoolean : num -> bool;         (* false on +0, -0 and NaN *)
  StringToNumber : string -> num;
  NumberToString : num -> string;
  TimeClip : num -> num;
  DateParse : string -> num;           (* Date.parse *)
  num_equal_1 : forall x, num_equal x (num_of_Z 1) = true -> x = num_of_Z 1;
  num_equal_of_Z : forall a b, safe_integer a -> safe_integer b ->
    num_equal (num_of_Z a) (num_of_Z b) = (a =? b)%Z;
  num_ToBoolean_of_Z : forall a, safe_integer a ->
    num_ToBoolean (num_of_Z a) = negb (a =? 0)%Z;
  num_ToBoolean_NaN : num_ToBoolean num_NaN = false;
  num_add_of_Z : forall a b,
    safe_integer a -> safe_integer b -> safe_integer (a + b) ->
    num_add (num_of_Z a) (num_of_Z b) = num_of_Z (a + b);
  num_mul_of_Z : forall a b,
    safe_integer a -> safe_integer b -> safe_integer (a * b) ->
    num_mul (num_of_Z a) (num_of_Z b) = num_of_Z (a * b);
  StringToNumber_decimal : forall s,
    s <> "" -> all_digits s = true -> safe_integer (decimal_value s) ->
    StringToNumber s = num_of_Z (decimal_value s);
  NumberToString_of_Z : forall z, safe_integer z ->
    NumberToString (num_of_Z z) = pretty z;
  TimeClip_of_Z : forall z, (Z.abs z <= max_time_value)%Z ->
    TimeClip (num_of_Z z) = num_of_Z z
}.

(** A [Date] object is its time value: milliseconds since the epoch, or NaN. *)
Record Date {num : Type} : Type := mkDate { time_value : num }.
Arguments Date : clear implicits.
Arguments mkDate {num} _.

(** ** JSON values and the expressions the program applies to them *)

Inductive value {num : Type} : Type :=
  | VUndefined
  | VNull
  | VBool (b : bool)
  | VNum (n : num)
  | VStr (s : string)
  | VArr (items : list value)
  | VObj (fields : gmap string value).
Arguments value : clear implicits.

(** What a [throw] carries. *)
Inductive exn : Type :=
  | TypeError                              (* a property read on undefined or null *)
  | Error (message : string)               (* [new Error(message)] *)
  | ManagedBluelinkyError (message : string)
  | TransportError (message : string).     (* a rejection of the HTTP service *)

Inductive result (A : Type) : Type :=
  | Ok (a : A)
  | Throw (e : exn).
Arguments Ok {A} a.
Arguments Throw {A} e.

#[global] Instance result_ret : MRet result := @Ok.
#[global] Instance result_bind : MBind result :=
  fun A B f r => match r with Ok a => f a | Throw e => Throw e end.

Definition is_ok {A} (r : result A) : bool :=
  match r with Ok _ => true | Throw _ => false end.

Section JsValues.
Context {num : Type} `{JsNumber num}.
Implicit Types (v w : value num) (k : string).

(** [v == null]: v is undefined or null. *)
Definition nullish v : bool :=
  match v with VUndefined | VNull => true | _ => false end.

(** The truthiness test of [if (v)], [!v], [!!v], [v ? a : b]. *)
Definition ToBoolean v : bool :=
  match v with
  | VUndefined | VNull => false
  | VBool b => b
  | VNum n => num_ToBoolean n
  | VStr s => negb (String.eqb s "")
  | VArr _ | VObj _ => true
  end.

(** [v === n] for a Number literal n. *)
Definition strict_equal_num v (n : Z) : bool :=
  match v with VNum m => num_equal m (num_of_Z n) | _ => false end.

(** [v ?? w] *)
Definition coalesce v w : value num := if nullish v then w else v.

(** [v || w] *)
Definition js_or v w : value num := if ToBoolean v then v else w.

(** [v?.k].  Only own data properties are modelled: the program never
    reads [length], an array index or an inherited member this way. *)
Definition opt_get v k : value num :=
  match v with
  | VObj fields => default VUndefined (fields !! k)
  | _ => VUndefined
  end.

(** [v.k]: as [v?.k], but a read on undefined or null throws. *)
Definition get v k : result (value num) :=
  if nullish v then Throw TypeError else Ok (opt_get v k).

(** [v[0]] *)
Definition get_index0 v : result (value num) :=
  match v with
  | VUndefined | VNull => Throw TypeError
  | VArr items => Ok (default VUndefined (head items))
  | VObj fields => Ok (default VUndefined (fields !! "0"))
  | VStr (String c _) => Ok (VStr (String c EmptyString))
  | _ => Ok VUndefined
  end.

(** [v.k?.k1?.k2 ...] *)
Definition path v k (ks : list string) : result (value num) :=
  x ← get v k; Ok (fold_left opt_get ks x).

(** [v?.k1?.k2 ...] *)
Definition opt_path v (ks : list string) : value num := fold_left opt_get ks v.

Fixpoint ToString v : string :=
  match v with
  | VUndefined => "undefined"
  | VNull => "null"
  | VBool true => "true"
  | VBool false => "false"
  | VNum n => NumberToString n
  | VStr s => s
  | VArr items =>
      String.concat ","
        (List.map (fun x => if nullish x then "" else ToString x) items)
  | VObj _ => "[object Object]"
  end.

Definition ToPrimitive v : value num :=
  match v with
  | VArr _ | VObj _ => VStr (ToString v)
  | _ => v
  end.

Definition ToNumber v : num :=
  match ToPrimitive v with
  | VUndefined => num_NaN
  | VNull => num_of_Z 0
  | VBool b => num_of_Z (if b then 1 else 0)
  | VNum n => n
  | VStr s => StringToNumber s
  | _ => num_NaN
  end.

(** [v + w] *)
Definition js_add v w : value num :=
  match ToPrimitive v, ToPrimitive w with
  | VStr a, pw => VStr (a ++ ToString pw)
  | pv, VStr b => VStr (ToString pv ++ b)
  | pv, pw => VNum (num_add (ToNumber pv) (ToNumber pw))
  end.

(** [v > 0] *)
Definition gt_zero v : bool := num_lessThan (num_of_Z 0) (ToNumber v).

(** [new Date(v)] *)
Definition Date_new v : Date num :=
  match ToPrimitive v with
  | VStr s => mkDate (TimeClip (DateParse s))
  | p => mkDate (TimeClip (ToNumber p))
  end.

(** [Array.isArray(v)] together with the elements. *)
Definition as_array v : option (list (value num)) :=
  match v with VArr items => Some items | _ => None end.

(** SameValueZero on Numbers, the comparison of [Array.prototype.includes]:
    as [===], except that NaN equals NaN. *)
Definition SameValueZero (x y : num) : bool :=
  num_equal x y || (negb (num_equal x x) && negb (num_equal y y)).

Definition includes (l : list num) (x : num) : bool :=
  existsb (fun y => SameValueZero y x) l.

(** [s.padStart(2, '0')] *)
Definition padStart2 (s : string) : string :=
  match String.length s with
  | O => "00"
  | S O => "0" ++ s
  | _ => s
  end.
End JsValues.

Infix "?." := opt_get (at level 25, left associativity).
Infix "??" := coalesce (at level 45, right associativity).

(** ** The integer instance of [JsNumber], used to run the examples *)

Inductive znum : Type := ZNaN | ZInt (z : Z).

Definition znum_lift (f : Z -> Z -> Z) (a b : znum) : znum :=
  match a, b with ZInt x, ZInt y => ZInt (f x y) | _, _ => ZNaN end.

Definition znum_test (f : Z -> Z -> bool) (a b : znum) : bool :=
  match a, b with ZInt x, ZInt y => f x y | _, _ => false end.

Definition znum_of_string (s : string) : znum :=
  if all_digits s then ZInt (decimal_value s) else ZNaN.

Definition znum_to_string (a : znum) : string :=
  match a with ZInt x => pretty x | ZNaN => "NaN" end.

Definition znum_TimeClip (a : znum) : znum :=
  match a with
  | ZInt x => if (Z.abs x <=? max_time_value)%Z then ZInt x else ZNaN
  | ZNaN => ZNaN
  end.

#[global, refine] Instance znum_JsNumber : JsNumber znum := {|
  num_of_Z := ZInt;
  num_NaN := ZNaN;
  num_add := znum_lift Z.add;
  num_mul := znum_lift Z.mul;
  num_equal := znum_test Z.eqb;
  num_lessThan := znum_test Z.ltb;
  num_ToBoolean := fun a => match a with ZInt x => negb (x =? 0)%Z | ZNaN => false end;
  StringToNumber := znum_of_string;
  NumberToString := znum_to_string;
  TimeClip := znum_TimeClip;
  DateParse := znum_of_string
|}.
Proof.
  - intros [|x]; simpl; [discriminate|]. intros E. apply Z.eqb_eq in E. congruence.
  - reflexivity.
  - reflexivity.
  - reflexivity.
  - reflexivity.
  - reflexivity.
  - intros s _ D _. unfold znum_of_string. now rewrite D.
  - reflexivity.
  - intros z Hz. simpl. apply Z.leb_le in Hz. now rewrite Hz.
Defined.

(** ** What the file imports from the rest of the repository *)

Record VehicleStatusOptions : Type := {
  refresh : bool;
  parsed : bool
}.

(** Constants and helpers of [../constants], [../util] and
    [../tools/common.tools].  Their text is not part of the sources at hand,
    so nothing is assumed about them: every theorem holds for all of them. *)
Class Imports (num : Type) : Type := {
  POSSIBLE_CHARGE_LIMIT_VALUES : list num;
  DEFAULT_VEHICLE_STATUS_OPTIONS : VehicleStatusOptions;
  REGIONS_AU : value num;
  EVPlugTypes_UNPLUGED : value num;
  EVChargeModeTypes_FAST : value num;
  EVChargeModeTypes_SLOW : value num;
  tempCodeToCelsius : value num -> value num -> result (value num);
  parseDate : value num -> result (Date num);
  manageBluelinkyError : exn -> string -> exn
}.

(** ** The status shape, [VehicleStatus] of [common.interfaces] as the two
       mappings fill it *)

Section StatusModel.
Context {num : Type}.

(** [chassis.openDoors] and [chassis.tirePressureWarningLamp]: both have a
    [frontLeft] and a [frontRight], hence the prefixes. *)
Record OpenDoors : Type := {
  doors_frontRight : bool;
  doors_frontLeft : bool;
  doors_backLeft : bool;
  doors_backRight : bool
}.

Record TirePressureWarningLamp : Type := {
  tire_rearLeft : bool;
  tire_frontLeft : bool;
  tire_frontRight : bool;
  tire_rearRight : bool;
  tire_all : bool
}.

Record Chassis : Type := {
  hoodOpen : value num;
  trunkOpen : value num;
  locked : value num;
  openDoors : OpenDoors;
  tirePressureWarningLamp : TirePressureWarningLamp
}.

Record Climate : Type := {
  active : value num;
  steeringwheelHeat : bool;
  sideMirrorHeat : bool;
  rearWindowHeat : bool;
  defrost : value num;
  temperatureSetpoint : value num;
  temperatureUnit : value num
}.

Record Engine : Type := {
  ignition : value num;
  accessory : value num;
  rangeGas : value num;
  range : value num;
  rangeEV : value num;
  plugedTo : value num;
  charging : value num;
  estimatedCurrentChargeDuration : value num;
  estimatedFastChargeDuration : value num;
  estimatedPortableChargeDuration : value num;
  estimatedStationChargeDuration : value num;
  batteryCharge12v : value num;
  batteryChargeHV : value num
}.

(** [lastupdate] is a [Date] or null. *)
Record VehicleStatus : Type := {
  chassis : Chassis;
  climate : Climate;
  engine : Engine;
  lastupdate : option (Date num)
}.

(** [status.engine.range = r] *)
Definition set_range (r : value num) (status : VehicleStatus) : VehicleStatus :=
  {| chassis := chassis status;
     climate := climate status;
     engine :=
       {| ignition := ignition (engine status);
          accessory := accessory (engine status);
          rangeGas := rangeGas (engine status);
          range := r;
          rangeEV := rangeEV (engine status);
          plugedTo := plugedTo (engine status);
          charging := charging (engine status);
          estimatedCurrentChargeDuration :=
            estimatedCurrentChargeDuration (engine status);
          estimatedFastChargeDuration :=
            estimatedFastChargeDuration (engine status);
          estimatedPortableChargeDuration :=
            estimatedPortableChargeDuration (engine status);
          estimatedStationChargeDuration :=
            estimatedStationChargeDuration (engine status);
          batteryCharge12v := batteryCharge12v (engine status);
          batteryChargeHV := batteryChargeHV (engine status) |};
     lastupdate := lastupdate status |}.
End StatusModel.
Arguments OpenDoors : clear implicits.
Arguments TirePressureWarningLamp : clear implicits.
Arguments Chassis : clear implicits.
Arguments Climate : clear implicits.
Arguments Engine : clear implicits.
Arguments VehicleStatus : clear implicits.

(** ** The two status mappings *)

Section StatusMappings.
Context {num : Type} `{JsNumber num} `{Imports num}.
Implicit Types (body v : value num).

(** [a && b] on expressions that may throw: b is evaluated only when a
    is true. *)
Definition and_then (a b : result bool) : result bool :=
  x ← a; if (x : bool) then b else Ok false.

(** [body.evStatus?.drvDistance[0]]: the optional link guards [evStatus]
    only; with [evStatus] at hand, [drvDistance] is read and indexed. *)
Definition drvDistance0 body : result (value num) :=
  evStatus ← get body "evStatus";
  if nullish evStatus then Ok VUndefined
  else drvDistance ← get evStatus "drvDistance"; get_index0 drvDistance.

(** [body.evStatus?.drvDistance[0]?.rangeByFuel?.<mode>?.value] *)
Definition rangeByFuel body (mode : string) : result (value num) :=
  d0 ← drvDistance0 body; Ok (opt_path d0 ["rangeByFuel"; mode; "value"]).

Definition parseVehicleStatus body : result (VehicleStatus num) :=
  x_hoodOpen ← get body "hoodOpen";
  x_trunkOpen ← get body "trunkOpen";
  x_locked ← get body "doorLock";
  d_frontRight ← path body "doorOpen" ["frontRight"];
  d_frontLeft ← path body "doorOpen" ["frontLeft"];
  d_backLeft ← path body "doorOpen" ["backLeft"];
  d_backRight ← path body "doorOpen" ["backRight"];
  t_rearLeft ← path body "tirePressureLamp" ["tirePressureLampRL"];
  t_frontLeft ← path body "tirePressureLamp" ["tirePressureLampFL"];
  t_frontRight ← path body "tirePressureLamp" ["tirePressureLampFR"];
  t_rearRight ← path body "tirePressureLamp" ["tirePressureLampRR"];
  t_all ← path body "tirePressureLamp" ["tirePressureWarningLampAll"];
  x_active ← get body "airCtrlOn";
  x_steeringwheelHeat ← get body "steerWheelHeat";
  x_rearWindowHeat ← get body "sideBackWindowHeat";
  x_defrost ← get body "defrost";
  airTempValue ← path body "airTemp" ["value"];
  x_temperatureSetpoint ← tempCodeToCelsius REGIONS_AU airTempValue;
  x_temperatureUnit ← path body "airTemp" ["unit"];
  x_ignition ← get body "engine";
  x_accessory ← get body "acc";
  gasModeRange ← rangeByFuel body "gasModeRange";
  x_rangeGas ←
    (if nullish gasModeRange then path body "dte" ["value"] else Ok gasModeRange);
  x_range ← rangeByFuel body "totalAvailableRange";
  x_rangeEV ← rangeByFuel body "evModeRange";
  batteryPlugin ← path body "evStatus" ["batteryPlugin"];
  x_charging ← path body "evStatus" ["batteryCharge"];
  x_current ← path body "evStatus" ["remainTime2"; "atc"; "value"];
  x_fast ← path body "evStatus" ["remainTime2"; "etc1"; "value"];
  x_portable ← path body "evStatus" ["remainTime2"; "etc2"; "value"];
  x_station ← path body "evStatus" ["remainTime2"; "etc3"; "value"];
  x_12v ← path body "battery" ["batSoc"];
  x_HV ← path body "evStatus" ["batteryStatus"];
  time ← get body "time";
  x_lastupdate ←
    (if ToBoolean time
     then time' ← get body "time"; d ← parseDate time'; Ok (Some d)
     else Ok None);
  Ok {|
    chassis := {|
      hoodOpen := x_hoodOpen;
      trunkOpen := x_trunkOpen;
      locked := x_locked;
      openDoors := {|
        doors_frontRight := ToBoolean d_frontRight;
        doors_frontLeft := ToBoolean d_frontLeft;
        doors_backLeft := ToBoolean d_backLeft;
        doors_backRight := ToBoolean d_backRight |};
      tirePressureWarningLamp := {|
        tire_rearLeft := ToBoolean t_rearLeft;
        tire_frontLeft := ToBoolean t_frontLeft;
        tire_frontRight := ToBoolean t_frontRight;
        tire_rearRight := ToBoolean t_rearRight;
        tire_all := ToBoolean t_all |} |};
    climate := {|
      active := x_active;
      steeringwheelHeat := ToBoolean x_steeringwheelHeat;
      sideMirrorHeat := false;
      rearWindowHeat := ToBoolean x_rearWindowHeat;
      defrost := x_defrost;
      temperatureSetpoint := x_temperatureSetpoint;
      temperatureUnit := x_temperatureUnit |};
    engine := {|
      ignition := x_ignition;
      accessory := x_accessory;
      rangeGas := x_rangeGas;
      range := x_range;
      rangeEV := x_rangeEV;
      plugedTo := batteryPlugin ?? EVPlugTypes_UNPLUGED;
      charging := x_charging;
      estimatedCurrentChargeDuration := x_current;
      estimatedFastChargeDuration := x_fast;
      estimatedPortableChargeDuration := x_portable;
      estimatedStationChargeDuration := x_station;
      batteryCharge12v := x_12v;
      batteryChargeHV := x_HV |};
    lastupdate := x_lastupdate |}.

(** [o.k1?.k2?.k3 === 1] *)
Definition is_1 (o : value num) (k : string) (ks : list string) : result bool :=
  x ← path o k ks; Ok (strict_equal_num x 1).

Definition missing_vehicle_state : exn :=
  Error "missing vehicle state in vehicle status response".

Definition parseCCS2VehicleStatus body : result (VehicleStatus num) :=
  state ← get body "state";
  let vehicleState := state ?. "Vehicle" in
  axle ← path vehicleState "Chassis" ["Axle"];
  door ← path vehicleState "Cabin" ["Door"];
  chargingInformation ← path vehicleState "Green" ["ChargingInformation"];
  if negb (ToBoolean vehicleState) || negb (ToBoolean axle) || negb (ToBoolean door)
  then Throw missing_vehicle_state
  else
    x_hoodOpen ← is_1 vehicleState "Body" ["Hood"; "Open"];
    x_trunkOpen ← is_1 vehicleState "Body" ["Trunk"; "Open"];
    x_locked ←
      and_then (is_1 door "Row1" ["Driver"; "Lock"])
        (and_then (is_1 door "Row1" ["Passenger"; "Lock"])
           (and_then (is_1 door "Row2" ["Left"; "Lock"])
              (is_1 door "Row2" ["Right"; "Lock"])));
    d_frontRight ← is_1 door "Row1" ["Driver"; "Open"];
    d_frontLeft ← is_1 door "Row1" ["Passenger"; "Open"];
    d_backLeft ← is_1 door "Row2" ["Left"; "Open"];
    d_backRight ← is_1 door "Row2" ["Right"; "Open"];
    t_rearLeft ← is_1 axle "Row2" ["Left"; "Tire"; "PressureLow"];
    t_frontLeft ← is_1 axle "Row1" ["Left"; "Tire"; "PressureLow"];
    t_frontRight ← is_1 axle "Row1" ["Right"; "Tire"; "PressureLow"];
    t_rearRight ← is_1 axle "Row2" ["Right"; "Tire"; "PressureLow"];
    t_all ← is_1 axle "Tire" ["PressureLow"];
    speedLevel ←
      path vehicleState "Cabin" ["HVAC"; "Row1"; "Driver"; "Blower"; "SpeedLevel"];
    x_steeringwheelHeat ← is_1 vehicleState "Cabin" ["SteeringWheel"; "Heat"; "State"];
    x_temperatureSetpoint ←
      path vehicleState "Cabin" ["HVAC"; "Row1"; "Driver"; "Temperature"; "Value"];
    x_temperatureUnit ←
      path vehicleState "Cabin" ["HVAC"; "Row1"; "Driver"; "Temperature"; "Unit"];
    x_accessory ← is_1 vehicleState "Electronics" ["PowerSupply"; "Accessory"];
    x_ignition ← is_1 vehicleState "Electronics" ["PowerSupply"; "Ignition1"];
    x_range ← path vehicleState "Drivetrain" ["FuelSystem"; "DTE"; "Total"];
    x_rangeEV ← path vehicleState "Drivetrain" ["FuelSystem"; "DTE"; "Total"];
    x_rangeGas ← path vehicleState "Drivetrain" ["FuelSystem"; "DTE"; "Total"];
    x_12v ← path vehicleState "Electronics" ["Battery"; "Level"];
    x_HV ← path vehicleState "Green" ["BatteryManagement"; "BatteryRemain"; "Ratio"];
    lastUpdateTime ← get body "lastUpdateTime";
    Ok {|
      chassis := {|
        hoodOpen := VBool x_hoodOpen;
        trunkOpen := VBool x_trunkOpen;
        locked := VBool x_locked;
        openDoors := {|
          doors_frontRight := d_frontRight;
          doors_frontLeft := d_frontLeft;
          doors_backLeft := d_backLeft;
          doors_backRight := d_backRight |};
        tirePressureWarningLamp := {|
          tire_rearLeft := t_rearLeft;
          tire_frontLeft := t_frontLeft;
          tire_frontRight := t_frontRight;
          tire_rearRight := t_rearRight;
          tire_all := t_all |} |};
      climate := {|
        active := VBool (negb (strict_equal_num speedLevel 0));
        steeringwheelHeat := x_steeringwheelHeat;
        sideMirrorHeat := false;
        rearWindowHeat := false;
        defrost := VBool false;
        temperatureSetpoint := x_temperatureSetpoint;
        temperatureUnit := x_temperatureUnit |};
      engine := {|
        accessory := VBool x_accessory;
        ignition := VBool x_ignition;
        range := x_range;
        rangeEV := x_rangeEV;
        rangeGas := x_rangeGas;
        plugedTo :=
          js_or (opt_path chargingInformation ["ConnectorFastening"; "State"])
            EVPlugTypes_UNPLUGED;
        charging :=
          VBool (gt_zero (opt_path chargingInformation ["Charging"; "RemainTime"]));
        estimatedCurrentChargeDuration :=
          opt_path chargingInformation ["Charging"; "RemainTime"];
        estimatedStationChargeDuration :=
          opt_path chargingInformation ["EstimatedTime"; "Quick"];
        estimatedFastChargeDuration :=
          opt_path chargingInformation ["EstimatedTime"; "Standard"];
        estimatedPortableChargeDuration :=
          opt_path chargingInformation ["EstimatedTime"; "ICCB"];
        batteryCharge12v := x_12v;
        batteryChargeHV := x_HV |};
      lastupdate := Some (Date_new lastUpdateTime) |}.

(** The range rule of [status()], lines 235-240: a falsy [range] is
    replaced by the sum of the two partial ranges when one of them is
    truthy. *)
Definition derive_range (parsedStatus : VehicleStatus num) : VehicleStatus num :=
  if negb (ToBoolean (range (engine parsedStatus))) then
    if ToBoolean (rangeEV (engine parsedStatus))
       || ToBoolean (rangeGas (engine parsedStatus))
    then
      set_range
        (js_add (rangeEV (engine parsedStatus) ?? VNum (num_of_Z 0))
                (rangeGas (engine parsedStatus) ?? VNum (num_of_Z 0)))
        parsedStatus
    else parsedStatus
  else parsedStatus.
End StatusMappings.

(** ** The vehicle handle and the HTTP service *)

Section Handle.
Context {num : Type}.

(** [serverRates]: the fields [max], [current], [reset] and [updatedAt],
    here with the prefix [rates_]; the two optional ones start out missing. *)
Record RateState : Type := {
  rates_max : num;
  rates_current : num;
  rates_reset : option (Date num);
  rates_updatedAt : option (Date num)
}.

Record Request : Type := {
  req_method : string;
  req_url : string;
  req_body : value num
}.

(** [got.Response]: [headers] may be missing; a header is a string. *)
Record Response : Type := {
  statusCode : num;
  headers : option (gmap string string);
  resp_body : value num
}.

(** The service [getVehicleHttpService()] or [getApiHttpService()] hands
    out: every request is answered or rejected. *)
Definition HttpService : Type := Request -> result Response.

(** What [status()] returns and caches: the parsed status or the raw body. *)
Inductive StatusValue : Type :=
  | Parsed (status : VehicleStatus num)
  | Raw (body : value num).

(** The fields of [AustraliaVehicle] the modelled methods touch, and the
    list of the requests the handle has issued so far. *)
Record AustraliaVehicle : Type := {
  vehicleConfig_id : string;
  ccuCCS2ProtocolSupport : bool;
  serverRates : RateState;
  _status : option StatusValue;
  issued : list Request
}.

Definition with_serverRates (r : RateState) (this : AustraliaVehicle) :=
  {| vehicleConfig_id := vehicleConfig_id this;
     ccuCCS2ProtocolSupport := ccuCCS2ProtocolSupport this;
     serverRates := r;
     _status := _status this;
     issued := issued this |}.

Definition with_status (s : StatusValue) (this : AustraliaVehicle) :=
  {| vehicleConfig_id := vehicleConfig_id this;
     ccuCCS2ProtocolSupport := ccuCCS2ProtocolSupport this;
     serverRates := serverRates this;
     _status := Some s;
     issued := issued this |}.

Definition with_issued (q : Request) (this : AustraliaVehicle) :=
  {| vehicleConfig_id := vehicleConfig_id this;
     ccuCCS2ProtocolSupport := ccuCCS2ProtocolSupport this;
     serverRates := serverRates this;
     _status := _status this;
     issued := issued this ++ [q] |}.

(** Methods: a computation on the handle that returns or throws. *)
Definition M (A : Type) : Type := AustraliaVehicle -> result A * AustraliaVehicle.

#[global] Instance M_ret : MRet M := fun A a this => (Ok a, this).
#[global] Instance M_bind : MBind M := fun A B f m this =>
  match m this with
  | (Ok a, this') => f a this'
  | (Throw e, this') => (Throw e, this')
  end.

Definition throw {A} (e : exn) : M A := fun this => (Throw e, this).
Definition lift {A} (r : result A) : M A := fun this => (r, this).
Definition get_this : M AustraliaVehicle := fun this => (Ok this, this).

(** [try { body } catch (err) { handler }] *)
Definition try_catch {A} (body : M A) (handler : exn -> M A) : M A :=
  fun this =>
    match body this with
    | (Throw err, this') => handler err this'
    | done => done
    end.

(** [await http.get(url)] and [await http.post(url, { body })]: the request
    is noted as issued, and the service answers it or rejects it. *)
Definition http_call (http : HttpService) (q : Request) : M Response :=
  fun this => (http q, with_issued q this).

Definition http_get (http : HttpService) (url : string) : M Response :=
  http_call http {| req_method := "GET"; req_url := url; req_body := VUndefined |}.

(** [resp.headers?.[name]] *)
Definition header (resp : Response) (name : string) : value num :=
  match headers resp with
  | Some hs => match hs !! name with Some s => VStr s | None => VUndefined end
  | None => VUndefined
  end.
End Handle.
Arguments RateState : clear implicits.
Arguments Request : clear implicits.
Arguments Response : clear implicits.
Arguments HttpService : clear implicits.
Arguments StatusValue : clear implicits.
Arguments AustraliaVehicle : clear implicits.
Arguments M : clear implicits.

(** ** Rate tracking and [status()] *)

Section Methods.
Context {num : Type} `{JsNumber num} `{Imports num}.

(** The body of [updateRates] as a function on [serverRates]; [now] is
    what [new Date()] returns. *)
Definition observe (now : Date num) (resp : Response num) (rates : RateState num) :
    RateState num :=
  if ToBoolean (header resp "x-ratelimit-limit") then
    {| rates_max := ToNumber (header resp "x-ratelimit-limit");
       rates_current := ToNumber (header resp "x-ratelimit-remaining");
       rates_reset :=
         if ToBoolean (header resp "x-ratelimit-reset")
         then Some (Date_new (VNum (ToNumber
                (VStr (ToString (header resp "x-ratelimit-reset") ++ "000")))))
         else rates_reset rates;
       rates_updatedAt := Some now |}
  else rates.

Definition updateRates (now : Date num) (resp : Response num) : M num (Response num) :=
  fun this => (Ok resp, with_serverRates (observe now resp (serverRates this)) this).

(** The options a caller passes to [status()]; a field left out keeps the
    default. *)
Record VehicleStatusInput : Type := {
  input_refresh : option bool;
  input_parsed : option bool
}.

Definition statusConfig (input : VehicleStatusInput) : VehicleStatusOptions :=
  {| refresh := default (refresh DEFAULT_VEHICLE_STATUS_OPTIONS) (input_refresh input);
     parsed := default (parsed DEFAULT_VEHICLE_STATUS_OPTIONS) (input_parsed input) |}.

Definition status_url (this : AustraliaVehicle num) (cfg : VehicleStatusOptions) :
    string :=
  let cacheString := if refresh cfg then "" else "/latest" in
  if ccuCCS2ProtocolSupport this
  then "/api/v2/spa/vehicles/" ++ vehicleConfig_id this ++ "/ccs2/carstatus" ++ cacheString
  else "/api/v2/spa/vehicles/" ++ vehicleConfig_id this ++ "/status" ++ cacheString.

(** [this._status = s; return this._status] *)
Definition cache_status (s : StatusValue num) : M num (StatusValue num) :=
  fun this => (Ok s, with_status s this).

Definition status (http : HttpService num) (now : Date num)
    (input : VehicleStatusInput) : M num (StatusValue num) :=
  try_catch
    (this ← get_this;
     r ← http_get http (status_url this (statusConfig input));
     response ← updateRates now r;
     body ← lift (get (resp_body response) "resMsg");
     if nullish body
     then throw (Error "missing vehicle status in response")
     else
       parsedStatus ← (lift
         (if ccuCCS2ProtocolSupport this
          then parseCCS2VehicleStatus body
          else parseVehicleStatus body) : M num (VehicleStatus num));
       let parsedStatus := derive_range parsedStatus in
       cache_status (if parsed (statusConfig input)
                     then Parsed parsedStatus else Raw body))
    (fun err => throw (manageBluelinkyError err "AustraliaVehicle.status")).

(** ** Charge targets *)

Definition charge_limit_message : string :=
  "Charge target values are limited to " ++
  String.concat ", " (List.map NumberToString POSSIBLE_CHARGE_LIMIT_VALUES).

Definition targetSOC (plugType : value num) (level : num) : value num :=
  VObj (<["plugType" := plugType]> (<["targetSOClevel" := VNum level]> ∅)).

Definition charge_target_request (this : AustraliaVehicle num) (fast slow : num) :
    Request num :=
  {| req_method := "POST";
     req_url := "/api/v2/spa/vehicles/" ++ vehicleConfig_id this ++ "/charge/target";
     req_body :=
       VObj (<["targetSOClist" :=
               VArr [targetSOC EVChargeModeTypes_FAST fast;
                     targetSOC EVChargeModeTypes_SLOW slow]]> ∅) |}.

Definition setChargeTargets (http : HttpService num) (now : Date num)
    (fast slow : num) : M num unit :=
  if negb (includes POSSIBLE_CHARGE_LIMIT_VALUES fast)
     || negb (includes POSSIBLE_CHARGE_LIMIT_VALUES slow)
  then throw (ManagedBluelinkyError charge_limit_message)
  else
    try_catch
      (this ← get_this;
       r ← http_call http (charge_target_request this fast slow);
       _ ← updateRates now r;
       mret tt)
      (fun err => throw (manageBluelinkyError err "AustraliaVehicle.setChargeTargets")).
End Methods.

(** ** Trip queries *)

Section TripModel.
Context {num : Type}.

Record Durations : Type := {
  durations_drive : value num;
  durations_idle : value num
}.

Record Speed : Type := {
  speed_avg : value num;
  speed_max : value num
}.

(** One entry of [VehicleMonthTrip.days]; [date] may be undefined. *)
Record MonthDay : Type := {
  dayRaw : value num;
  date : option (Date num);
  tripsCount : value num
}.

Record VehicleMonthTrip : Type := {
  days : list MonthDay;
  month_durations : Durations;
  month_distance : value num;
  month_speed : Speed
}.

(** One entry of [VehicleDayTrip.trips]; the source calls the two dates
    [start] and [end]. *)
Record Trip : Type := {
  timeRaw : value num;
  trip_start : Date num;
  trip_end : Date num;
  trip_durations : Durations;
  trip_speed : Speed;
  trip_distance : value num
}.

Record VehicleDayTrip : Type := {
  day_dayRaw : value num;
  day_tripsCount : value num;
  day_distance : value num;
  day_durations : Durations;
  day_speed : Speed;
  trips : list Trip
}.

(** The three shapes [tripInfo] resolves to. *)
Inductive TripInfo : Type :=
  | TripMonth (month : VehicleMonthTrip)
  | TripDays (list_of_days : list VehicleDayTrip)
  | TripUndefined.

(** The argument of [tripInfo]: [day] is optional. *)
Record TripDate : Type := {
  year : num;
  month : num;
  day : option num
}.
End TripModel.
Arguments Durations : clear implicits.
Arguments Speed : clear implicits.
Arguments MonthDay : clear implicits.
Arguments VehicleMonthTrip : clear implicits.
Arguments Trip : clear implicits.
Arguments VehicleDayTrip : clear implicits.
Arguments TripInfo : clear implicits.
Arguments TripDate : clear implicits.

Section Trips.
Context {num : Type} `{JsNumber num} `{Imports num}.

(** Modelled from the spec: [addMinutes] of [../util] is not among the
    sources at hand.  The spec (4.3) has the end of a trip "computed by
    adding the vendor-reported drive duration in minutes to a parsed start
    timestamp": the time value moves on by 60000 milliseconds a minute. *)
Definition addMinutes (date : Date num) (minutes : value num) : Date num :=
  mkDate (TimeClip
    (num_add (time_value date) (num_mul (ToNumber minutes) (num_of_Z 60000)))).

Definition toMonthDate (date : TripDate num) : string :=
  NumberToString (year date) ++ padStart2 (NumberToString (month date)).

Definition day_truthy (date : TripDate num) : bool :=
  match day date with Some d => num_ToBoolean d | None => false end.

Definition toDayDate (date : TripDate num) : string :=
  match day date with
  | Some d =>
      if num_ToBoolean d
      then toMonthDate date ++ padStart2 (NumberToString d)
      else toMonthDate date
  | None => toMonthDate date
  end.

Definition tripinfo_request (this : AustraliaVehicle num) (date : TripDate num) :
    Request num :=
  let perDay := day_truthy date in
  {| req_method := "POST";
     req_url := "/api/v1/spa/vehicles/" ++ vehicleConfig_id this ++ "/tripinfo";
     req_body :=
       VObj (<["setTripLatest" := VNum (num_of_Z 10)]>
            (<["setTripMonth" :=
                 if negb perDay then VStr (toMonthDate date) else VUndefined]>
            (<["setTripDay" :=
                 if perDay then VStr (toDayDate date) else VUndefined]>
            (<["tripPeriodType" := VNum (num_of_Z (if perDay then 1 else 0))]> ∅)))) |}.

(** The arrow function mapped over [tripDayList]. *)
Definition month_day (d : value num) : result (MonthDay num) :=
  x_dayRaw ← get d "tripDayInMonth";
  cond ← get d "tripDayInMonth";
  x_date ←
    (if ToBoolean cond
     then arg ← get d "tripDayInMonth"; parsed_date ← parseDate arg; Ok (Some parsed_date)
     else Ok None);
  x_tripsCount ← get d "tripCntDay";
  Ok {| dayRaw := x_dayRaw; date := x_date; tripsCount := x_tripsCount |}.

(** The arrow function mapped over [day.tripList]. *)
Definition day_trip (d trip : value num) : result (Trip num) :=
  tripDay ← get d "tripDay";
  tripTime ← get trip "tripTime";
  start ← parseDate (VStr (ToString tripDay ++ ToString tripTime));
  x_timeRaw ← get trip "tripTime";
  minutes ← get trip "tripDrvTime";
  x_drive ← get trip "tripDrvTime";
  x_idle ← get trip "tripIdleTime";
  x_avg ← get trip "tripAvgSpeed";
  x_max ← get trip "tripMaxSpeed";
  x_distance ← get trip "tripDist";
  Ok {| timeRaw := x_timeRaw;
        trip_start := start;
        trip_end := addMinutes start minutes;
        trip_durations := {| durations_drive := x_drive; durations_idle := x_idle |};
        trip_speed := {| speed_avg := x_avg; speed_max := x_max |};
        trip_distance := x_distance |}.

(** The arrow function mapped over [dayTripList]. *)
Definition day_trips (d : value num) : result (VehicleDayTrip num) :=
  x_dayRaw ← get d "tripDay";
  x_tripsCount ← get d "dayTripCnt";
  x_distance ← get d "tripDist";
  x_drive ← get d "tripDrvTime";
  x_idle ← get d "tripIdleTime";
  x_avg ← get d "tripAvgSpeed";
  x_max ← get d "tripMaxSpeed";
  tripList ← get d "tripList";
  x_trips ←
    match as_array tripList with
    | Some items => mapM (day_trip d) items
    | None => Ok []
    end;
  Ok {| day_dayRaw := x_dayRaw;
        day_tripsCount := x_tripsCount;
        day_distance := x_distance;
        day_durations := {| durations_drive := x_drive; durations_idle := x_idle |};
        day_speed := {| speed_avg := x_avg; speed_max := x_max |};
        trips := x_trips |}.

(** The branch [if (!perDay)]. *)
Definition month_trip (response : Response num) : result (TripInfo num) :=
  rawData ← get (resp_body response) "resMsg";
  x_days ←
    match as_array (rawData ?. "tripDayList") with
    | Some items => mapM month_day items
    | None => Ok []
    end;
  Ok (TripMonth
    {| days := x_days;
       month_durations :=
         {| durations_drive := rawData ?. "tripDrvTime";
            durations_idle := rawData ?. "tripIdleTime" |};
       month_distance := rawData ?. "tripDist";
       month_speed :=
         {| speed_avg := rawData ?. "tripAvgSpeed";
            speed_max := rawData ?. "tripMaxSpeed" |} |}).

(** The branch [else]: without an array under [dayTripList] the method
    falls through to the bare [return]. *)
Definition day_trip_list (response : Response num) : result (TripInfo num) :=
  resMsg ← get (resp_body response) "resMsg";
  rawData ← get resMsg "dayTripList";
  match as_array rawData with
  | Some items => x_days ← mapM day_trips items; Ok (TripDays x_days)
  | None => Ok TripUndefined
  end.

(** [current] stands for the year and month of [new Date()], the default
    argument. *)
Definition tripInfo (http : HttpService num) (now : Date num)
    (current : num * num) (date_arg : option (TripDate num)) : M num (TripInfo num) :=
  let date := default {| year := fst current; month := snd current; day := None |}
                      date_arg in
  try_catch
    (this ← get_this;
     let perDay := day_truthy date in
     r ← http_call http (tripinfo_request this date);
     response ← updateRates now r;
     lift (if negb perDay then month_trip response else day_trip_list response))
    (fun err => throw (manageBluelinkyError err "AustraliaVehicle.history")).
End Trips.

(** ** The other methods of the class *)

Section OtherShapes.
Context {num : Type}.

(** [VehicleOdometer], [VehicleLocation] (its [speed] group flattened) and
    [FullVehicleStatus] of [common.interfaces]. *)
Record VehicleOdometer : Type := {
  odometer_unit : num;
  odometer_value : value num
}.

Record VehicleLocation : Type := {
  latitude : value num;
  longitude : value num;
  altitude : value num;
  location_speed_unit : value num;
  location_speed_value : value num;
  heading : value num
}.

Record FullVehicleStatus : Type := {
  vehicleLocation : value num;
  full_odometer : VehicleOdometer;
  vehicleStatus : value num
}.

(** The fields [_odometer], [_location] and [_fullStatus] that the class
    inherits from [Vehicle]; they start out missing. *)
Record Cached : Type := {
  _odometer : option VehicleOdometer;
  _location : option VehicleLocation;
  _fullStatus : option FullVehicleStatus
}.

(** Methods that also write the inherited fields: computations on the handle
    together with those fields. *)
Definition MC (A : Type) : Type :=
  AustraliaVehicle num * Cached -> result A * (AustraliaVehicle num * Cached).

#[global] Instance MC_ret : MRet MC := fun A a h => (Ok a, h).
#[global] Instance MC_bind : MBind MC := fun A B f m h =>
  match m h with
  | (Ok a, h') => f a h'
  | (Throw e, h') => (Throw e, h')
  end.

(** A computation on the handle proper, run inside [MC]. *)
Definition on_vehicle {A} (m : M num A) : MC A :=
  fun h => match m (fst h) with (r, this') => (r, (this', snd h)) end.

Definition throw_C {A} (e : exn) : MC A := fun h => (Throw e, h).
Definition lift_C {A} (r : result A) : MC A := fun h => (r, h).

Definition try_catch_C {A} (body : MC A) (handler : exn -> MC A) : MC A :=
  fun h =>
    match body h with
    | (Throw err, h') => handler err h'
    | done => done
    end.

(** [this._odometer = o], [this._location = l], [this._fullStatus = f] *)
Definition cache_odometer (o : VehicleOdometer) : MC unit :=
  fun h => (Ok tt, (fst h, {| _odometer := Some o;
                              _location := _location (snd h);
                              _fullStatus := _fullStatus (snd h) |})).

Definition cache_location (l : VehicleLocation) : MC unit :=
  fun h => (Ok tt, (fst h, {| _odometer := _odometer (snd h);
                              _location := Some l;
                              _fullStatus := _fullStatus (snd h) |})).

Definition cache_fullStatus (f : FullVehicleStatus) : MC unit :=
  fun h => (Ok tt, (fst h, {| _odometer := _odometer (snd h);
                              _location := _location (snd h);
                              _fullStatus := Some f |})).

(** [DeepPartial<VehicleMonthlyReport>] as [monthlyReport] fills it; the
    groups [driving] and [vehicleStatus] and the flag [tpms] may be
    undefined. *)
Record MonthlyDriving : Type := {
  driving_distance : value num;
  driving_startCount : value num;
  driving_idle : value num;
  driving_drive : value num
}.

Record MonthlyVehicleStatus : Type := {
  tpms : option bool;
  tirePressure_all : bool
}.

Record VehicleMonthlyReport : Type := {
  report_start : value num;
  report_end : value num;
  report_breakdown : value num;
  report_driving : option MonthlyDriving;
  report_vehicleStatus : option MonthlyVehicleStatus
}.

(** One line of the drive history; [rawDate] and [date] are those of a line
    of [history] and stay undefined in a line of [cumulated]. *)
Record Consumption : Type := {
  consumption_total : value num;
  consumption_engine : value num;
  consumption_climate : value num;
  consumption_devices : value num;
  consumption_battery : value num
}.

Record DriveHistoryLine : Type := {
  line_period : value num;
  line_rawDate : value num;
  line_date : option (Date num);
  line_consumption : Consumption;
  line_regen : value num;
  line_distance : value num
}.

(** What [driveHistory] returns; either list may be undefined. *)
Record DriveHistory : Type := {
  cumulated : option (list DriveHistoryLine);
  history : option (list DriveHistoryLine)
}.

(** [DeepPartial<VehicleTargetSOC>] *)
Record VehicleTargetSOC : Type := {
  soc_distance : value num;
  soc_targetLevel : value num;
  soc_type : value num
}.
End OtherShapes.
Arguments VehicleOdometer : clear implicits.
Arguments VehicleLocation : clear implicits.
Arguments FullVehicleStatus : clear implicits.
Arguments Cached : clear implicits.
Arguments MC : clear implicits.
Arguments MonthlyDriving : clear implicits.
Arguments MonthlyVehicleStatus : clear implicits.
Arguments VehicleMonthlyReport : clear implicits.
Arguments Consumption : clear implicits.
Arguments DriveHistoryLine : clear implicits.
Arguments DriveHistory : clear implicits.
Arguments VehicleTargetSOC : clear implicits.

Section OtherMethods.
Context {num : Type} `{JsNumber num} `{Imports num}.

(** [manageBluelinkyError] of [../tools/common.tools] applied to a thrown
    string, which is no [Error] object: nothing is assumed about it. *)
Variable manageThrownString : string -> string -> exn.

(** [`/api/v2/spa/vehicles/${this.vehicleConfig.id}<rest>`] *)
Definition vehicle_url (this : AustraliaVehicle num) (rest : string) : string :=
  "/api/v2/spa/vehicles/" ++ vehicleConfig_id this ++ rest.

(** [response.statusCode === 200] *)
Definition is_200 (response : Response num) : bool :=
  num_equal (statusCode response) (num_of_Z 200).

(** The body [{ action, deviceId }] posted to [control/door] and
    [control/charge]; [deviceId] is [this.controller.session.deviceId]. *)
Definition action_request (this : AustraliaVehicle num) (rest action : string)
    (deviceId : value num) : Request num :=
  {| req_method := "POST";
     req_url := vehicle_url this rest;
     req_body := VObj (<["action" := VStr action]> (<["deviceId" := deviceId]> ∅)) |}.

Definition lock (http : HttpService num) (now : Date num) (deviceId : value num) :
    M num string :=
  try_catch
    (this ← get_this;
     r ← http_call http (action_request this "/control/door" "close" deviceId);
     response ← updateRates now r;
     mret (if is_200 response then "Lock successful" else "Something went wrong!"))
    (fun err => throw (manageBluelinkyError err "AustraliaVehicle.lock")).

Definition unlock (http : HttpService num) (now : Date num) (deviceId : value num) :
    M num string :=
  try_catch
    (this ← get_this;
     r ← http_call http (action_request this "/control/door" "open" deviceId);
     response ← updateRates now r;
     mret (if is_200 response then "Unlock successful" else "Something went wrong!"))
    (fun err => throw (manageBluelinkyError err "AustraliaVehicle.unlock")).

(** The common text of [startCharge] and [stopCharge]: inside the [try], a
    status other than 200 throws the string 'Something went wrong!', which
    the [catch] of the method hands to [manageBluelinkyError] like any other
    error. *)
Definition charge_command (action success context : string)
    (http : HttpService num) (now : Date num) (deviceId : value num) : M num string :=
  fun this =>
    match (r ← http_call http (action_request this "/control/charge" action deviceId);
           updateRates now r) this with
    | (Throw err, this') => (Throw (manageBluelinkyError err context), this')
    | (Ok response, this') =>
        if is_200 response then (Ok success, this')
        else (Throw (manageThrownString "Something went wrong!" context), this')
    end.

Definition startCharge : HttpService num -> Date num -> value num -> M num string :=
  charge_command "start" "Start charge successful" "AustraliaVehicle.startCharge".

Definition stopCharge : HttpService num -> Date num -> value num -> M num string :=
  charge_command "stop" "Stop charge successful" "AustraliaVehicle.stopCharge".

(** The request of [odometer] and [monthlyReport]. *)
Definition monthlyreport_request (this : AustraliaVehicle num) (month : num * num) :
    Request num :=
  {| req_method := "POST";
     req_url := vehicle_url this "/monthlyreport";
     req_body :=
       VObj (<["setRptMonth" :=
               VStr (toMonthDate {| year := fst month; month := snd month; day := None |})]>
             ∅) |}.

(** [current] stands for the year and month of [new Date()]. *)
Definition odometer (http : HttpService num) (now : Date num) (current : num * num) :
    MC num (option (VehicleOdometer num)) :=
  try_catch_C
    (this ← on_vehicle get_this;
     r ← on_vehicle (http_call http (monthlyreport_request this current));
     response ← on_vehicle (updateRates now r);
     x_value ← lift_C (resMsg ← get (resp_body response) "resMsg"; get resMsg "odometer");
     let result := {| odometer_unit := num_of_Z 0; odometer_value := x_value |} in
     _ ← cache_odometer result;
     mret (Some result))
    (fun err => throw_C (manageBluelinkyError err "AustraliaVehicle.odometer")).

Definition location (http : HttpService num) (now : Date num) :
    MC num (VehicleLocation num) :=
  try_catch_C
    (this ← on_vehicle get_this;
     r ← on_vehicle (http_get http (vehicle_url this "/location/park"));
     response ← on_vehicle (updateRates now r);
     data ← lift_C (path (resp_body response) "resMsg" ["gpsDetail"]);
     let result :=
       {| latitude := opt_path data ["coord"; "lat"];
          longitude := opt_path data ["coord"; "lon"];
          altitude := opt_path data ["coord"; "alt"];
          location_speed_unit := opt_path data ["speed"; "unit"];
          location_speed_value := opt_path data ["speed"; "value"];
          heading := opt_path data ["head"] |} in
     _ ← cache_location result;
     mret result)
    (fun err => throw_C (manageBluelinkyError err "AustraliaVehicle.location")).

(** The URL of the first request of [fullStatus]. *)
Definition fullStatus_url (this : AustraliaVehicle num) (cfg : VehicleStatusOptions) :
    string :=
  if refresh cfg then vehicle_url this "/status/latest" else vehicle_url this "/status".

(** [now1], [now2] and [now3] are the times of the three responses. *)
Definition fullStatus (http : HttpService num) (now1 now2 now3 : Date num)
    (current : num * num) (input : VehicleStatusInput) :
    MC num (option (FullVehicleStatus num)) :=
  try_catch_C
    (this ← on_vehicle get_this;
     r1 ← on_vehicle (http_get http (fullStatus_url this (statusConfig input)));
     vehicleStatusResponse ← on_vehicle (updateRates now1 r1);
     r2 ← on_vehicle (http_get http (vehicle_url this "/location/park"));
     locationResponse ← on_vehicle (updateRates now2 r2);
     x_odometer ← odometer http now3 current;
     match x_odometer with
     | None => mret None
     | Some o =>
         x_location ← lift_C
           (resMsg ← get (resp_body locationResponse) "resMsg"; get resMsg "gpsDetail");
         x_status ← lift_C (get (resp_body vehicleStatusResponse) "resMsg");
         let result := {| vehicleLocation := x_location;
                          full_odometer := o;
                          vehicleStatus := x_status |} in
         _ ← cache_fullStatus result;
         mret (Some result)
     end)
    (fun err => throw_C (manageBluelinkyError err "AustraliaVehicle.fullStatus")).

(** [v == s] for a string literal s. *)
Definition loose_equal_string (v : value num) (s : string) : bool :=
  match v with
  | VUndefined | VNull => false
  | VBool b => num_equal (num_of_Z (if b then 1 else 0)) (StringToNumber s)
  | VNum n => num_equal n (StringToNumber s)
  | VStr t => String.eqb t s
  | VArr _ | VObj _ => String.eqb (ToString v) s
  end.

(** The object [monthlyReport] builds from a truthy [rawData]. *)
Definition monthly_report_of (rawData : value num) : VehicleMonthlyReport num :=
  {| report_start := opt_path rawData ["ifo"; "mvrMonthStart"];
     report_end := opt_path rawData ["ifo"; "mvrMonthEnd"];
     report_breakdown := rawData ?. "breakdown";
     report_driving :=
       if ToBoolean (rawData ?. "driving")
       then Some {| driving_distance := opt_path rawData ["driving"; "runDistance"];
                    driving_startCount := opt_path rawData ["driving"; "engineStartCount"];
                    driving_idle := opt_path rawData ["driving"; "engineIdleTime"];
                    driving_drive := opt_path rawData ["driving"; "engineOnTime"] |}
       else None;
     report_vehicleStatus :=
       if ToBoolean (rawData ?. "vehicleStatus")
       then Some {| tpms :=
                      if ToBoolean (opt_path rawData ["vehicleStatus"; "tpmsSupport"])
                      then Some (ToBoolean (opt_path rawData ["vehicleStatus"; "tpmsSupport"]))
                      else None;
                    tirePressure_all :=
                      loose_equal_string
                        (opt_path rawData
                           ["vehicleStatus"; "tirePressure"; "tirePressureLampAll"])
                        "1" |}
       else None |}.

(** [month_arg] is the argument, [current] the year and month of
    [new Date()] that stand in for a missing one. *)
Definition monthlyReport (http : HttpService num) (now : Date num)
    (current : num * num) (month_arg : option (num * num)) :
    M num (option (VehicleMonthlyReport num)) :=
  try_catch
    (this ← get_this;
     r ← http_call http (monthlyreport_request this (default current month_arg));
     response ← updateRates now r;
     rawData ← lift (path (resp_body response) "resMsg" ["monthlyReport"]);
     mret (if ToBoolean rawData then Some (monthly_report_of rawData) else None))
    (fun err => throw (manageBluelinkyError err "AustraliaVehicle.monthyReports")).

(** [v?.map(f)]: undefined for a missing v, the mapped list for an array,
    and a TypeError for anything else, which has no [map] to call. *)
Definition opt_map {A} (v : value num) (f : value num -> result A) :
    result (option (list A)) :=
  match v with
  | VUndefined | VNull => Ok None
  | VArr items => l ← mapM f items; Ok (Some l)
  | _ => Throw TypeError
  end.

Definition consumption_of (line : value num) : result (Consumption num) :=
  x_total ← get line "totalPwrCsp";
  x_engine ← get line "motorPwrCsp";
  x_climate ← get line "climatePwrCsp";
  x_devices ← get line "eDPwrCsp";
  x_battery ← get line "batteryMgPwrCsp";
  Ok {| consumption_total := x_total;
        consumption_engine := x_engine;
        consumption_climate := x_climate;
        consumption_devices := x_devices;
        consumption_battery := x_battery |}.

(** The arrow function mapped over [drivingInfo]. *)
Definition cumulated_line (line : value num) : result (DriveHistoryLine num) :=
  x_period ← get line "drivingPeriod";
  x_consumption ← consumption_of line;
  x_regen ← get line "regenPwr";
  x_distance ← get line "calculativeOdo";
  Ok {| line_period := x_period;
        line_rawDate := VUndefined;
        line_date := None;
        line_consumption := x_consumption;
        line_regen := x_regen;
        line_distance := x_distance |}.

(** The arrow function mapped over [drivingInfoDetail]. *)
Definition history_line (line : value num) : result (DriveHistoryLine num) :=
  x_period ← get line "drivingPeriod";
  x_rawDate ← get line "drivingDate";
  cond ← get line "drivingDate";
  x_date ←
    (if ToBoolean cond
     then arg ← get line "drivingDate"; parsed_date ← parseDate arg; Ok (Some parsed_date)
     else Ok None);
  x_consumption ← consumption_of line;
  x_regen ← get line "regenPwr";
  x_distance ← get line "calculativeOdo";
  Ok {| line_period := x_period;
        line_rawDate := x_rawDate;
        line_date := x_date;
        line_consumption := x_consumption;
        line_regen := x_regen;
        line_distance := x_distance |}.

Definition drvhistory_request (this : AustraliaVehicle num) (period : value num) :
    Request num :=
  {| req_method := "POST";
     req_url := "/api/v1/spa/vehicles/" ++ vehicleConfig_id this ++ "/drvhistory";
     req_body := VObj (<["periodTarget" := period]> ∅) |}.

(** [period] is the argument or, when it is left out,
    [historyDrivingPeriod.DAY].  The response is not passed to
    [updateRates]. *)
Definition driveHistory (http : HttpService num) (period : value num) :
    M num (DriveHistory num) :=
  try_catch
    (this ← get_this;
     response ← http_call http (drvhistory_request this period);
     lift
       (resMsg ← get (resp_body response) "resMsg";
        drivingInfo ← get resMsg "drivingInfo";
        x_cumulated ← opt_map drivingInfo cumulated_line;
        resMsg' ← get (resp_body response) "resMsg";
        drivingInfoDetail ← get resMsg' "drivingInfoDetail";
        x_history ← opt_map drivingInfoDetail history_line;
        Ok {| cumulated := x_cumulated; history := x_history |}))
    (fun err => throw (manageBluelinkyError err "AustraliaVehicle.history")).

(** The arrow function mapped over [targetSOClist]. *)
Definition target_soc_of (rawSOC : value num) : result (VehicleTargetSOC num) :=
  x_distance ← path rawSOC "drvDistance" ["distanceType"; "distanceValue"];
  x_level ← get rawSOC "targetSOClevel";
  x_type ← get rawSOC "plugType";
  Ok {| soc_distance := x_distance; soc_targetLevel := x_level; soc_type := x_type |}.

Definition getChargeTargets (http : HttpService num) (now : Date num) :
    M num (option (list (VehicleTargetSOC num))) :=
  try_catch
    (this ← get_this;
     r ← http_get http (vehicle_url this "/charge/target");
     response ← updateRates now r;
     rawData ← lift (path (resp_body response) "resMsg" ["targetSOClist"]);
     match as_array rawData with
     | Some items => l ← lift (mapM target_soc_of items); mret (Some l)
     | None => mret None
     end)
    (fun err => throw (manageBluelinkyError err "AustraliaVehicle.getChargeTargets")).
End OtherMethods.

(** ** Vendor fields the properties speak about *)

Section VendorFields.
Context {num : Type}.
Implicit Types (body : value num).

(** [body.state?.Vehicle] and the two substructures the CCS2 mapping
    checks, [Chassis?.Axle] and [Cabin?.Door]. *)
Definition vehicleState_of body : value num := opt_path body ["state"; "Vehicle"].
Definition axle_of body : value num :=
  opt_path body ["state"; "Vehicle"; "Chassis"; "Axle"].
Definition door_of body : value num :=
  opt_path body ["state"; "Vehicle"; "Cabin"; "Door"].

(** CCS2: the lock code of a door, [door.<row>?.<side>?.Lock]. *)
Definition door_lock body (row side : string) : value num :=
  opt_path (door_of body) [row; side; "Lock"].

(** CCS2: the pressure code of a wheel, [axle.<row>?.<side>?.Tire?.PressureLow],
    and the one of the whole axle set, [axle.Tire?.PressureLow]. *)
Definition wheel_pressure_low body (row side : string) : value num :=
  opt_path (axle_of body) [row; side; "Tire"; "PressureLow"].
Definition axle_pressure_low body : value num :=
  opt_path (axle_of body) ["Tire"; "PressureLow"].

(** CCS2: [vehicleState.Cabin?.HVAC?.Row1?.Driver?.Blower?.SpeedLevel]. *)
Definition blower_speed_level body : value num :=
  opt_path (vehicleState_of body)
    ["Cabin"; "HVAC"; "Row1"; "Driver"; "Blower"; "SpeedLevel"].

(** Legacy: [body.tirePressureLamp?.<lamp>]. *)
Definition tire_lamp body (lamp : string) : value num :=
  opt_path body ["tirePressureLamp"; lamp].
End VendorFields.

(** ** Region temperature tables *)

(** Modelled from the spec: the converters [celciusToTempCode] and
    [tempCodeToCelsius] of [../util] and the table they read are not among
    the sources at hand.  The spec (4.1 and 6) describes a table "keyed by
    region identifier, mapping vendor temperature code ↔ Celsius", with a
    "locale-specific offset/step encoding": a region gives the Celsius value
    of code 0, the step between two codes, a positive rational, and the
    number of codes. *)
Record TemperatureRange : Type := {
  temp_start : Qc;
  temp_step : Qp;
  temp_count : nat
}.

(** Modelled from the spec: the Celsius value the offset/step encoding gives
    to a code. *)
Definition celsius_at (r : TemperatureRange) (code : nat) : Qc :=
  (temp_start r + Qc_of_Z (Z.of_nat code) * Qp_to_Qc (temp_step r))%Qc.

(** Modelled from the spec: the table of a region, code by code. *)
Definition temperature_table (r : TemperatureRange) : list (nat * Qc) :=
  List.map (fun code => (code, celsius_at r code)) (seq 0 (temp_count r)).

(** Modelled from the spec: [codeToCelsius(region, code)], the table read
    from code to Celsius; nothing for an unknown region or code. *)
Definition codeToCelsius (regions : gmap string TemperatureRange)
    (region : string) (code : nat) : option Qc :=
  r ← regions !! region;
  e ← List.find (fun e => Nat.eqb (fst e) code) (temperature_table r);
  Some (snd e).

(** Modelled from the spec: [celsiusToCode(region, celsius)], the table read
    from Celsius to code; nothing for a value the table does not hold. *)
Definition celsiusToCode (regions : gmap string TemperatureRange)
    (region : string) (celsius : Qc) : option nat :=
  r ← regions !! region;
  e ← List.find (fun e => bool_decide (snd e = celsius)) (temperature_table r);
  Some (fst e).

(** ** Reading a time value as a UTC date *)

(** The civil date of a day number counted from 1970-01-01 (days-to-civil
    conversion of the proleptic Gregorian calendar). *)
Definition civil_from_days (days : Z) : Z * Z * Z :=
  let z := (days + 719468)%Z in
  let era := (z / 146097)%Z in
  let doe := (z - era * 146097)%Z in
  let yoe := ((doe - doe / 1460 + doe / 36524 - doe / 146096) / 365)%Z in
  let doy := (doe - (365 * yoe + yoe / 4 - yoe / 100))%Z in
  let mp := ((5 * doy + 2) / 153)%Z in
  let d := (doy - (153 * mp + 2) / 5 + 1)%Z in
  let m := (if mp <? 10 then mp + 3 else mp - 9)%Z in
  let y := (yoe + era * 400 + (if m <=? 2 then 1 else 0))%Z in
  (y, m, d).

(** Year, month, day and hour, minute, second of a time value in
    milliseconds, as [toISOString] prints them. *)
Definition utc_of_ms (ms : Z) : (Z * Z * Z) * (Z * Z * Z) :=
  let seconds := (ms / 1000)%Z in
  let in_day := (seconds mod 86400)%Z in
  (civil_from_days (seconds / 86400),
   ((in_day / 3600)%Z, ((in_day mod 3600) / 60)%Z, (in_day mod 60)%Z)).

(** ** Numerals *)

(** [render] is the numeral of [z] in exactly [width] decimal digits. *)
Definition numeral_ok (width : nat) (render : string) (z : Z) : bool :=
  (String.length render =? width)%nat && all_digits render
  && (decimal_value render =? z)%Z.

(** ** Sample data for the examples *)

(** A stand-in for the imports, on which the examples below are evaluated:
    sample constants, converters that accept strings only, and an error
    manager that hands the error on. *)
#[global] Instance sample_imports : Imports znum := {|
  POSSIBLE_CHARGE_LIMIT_VALUES := [ZInt 50; ZInt 60; ZInt 70; ZInt 80; ZInt 90; ZInt 100];
  DEFAULT_VEHICLE_STATUS_OPTIONS := {| refresh := false; parsed := false |};
  REGIONS_AU := VStr "AU";
  EVPlugTypes_UNPLUGED := VNum (ZInt 0);
  EVChargeModeTypes_FAST := VNum (ZInt 0);
  EVChargeModeTypes_SLOW := VNum (ZInt 1);
  tempCodeToCelsius := fun _ code =>
    match code with VStr _ => Ok (VNum (ZInt 22)) | _ => Throw TypeError end;
  parseDate := fun str =>
    match str with VStr s => Ok (mkDate (znum_of_string s)) | _ => Throw TypeError end;
  manageBluelinkyError := fun err _ => err
|}.

(** The object literal [{ k1: v1, k2: v2, ... }] *)
Definition obj (members : list (string * value znum)) : value znum :=
  VObj (list_to_map members).

Definition num_lit (z : Z) : value znum := VNum (ZInt z).

Definition sample_time : Date znum := mkDate (ZInt 1700000000123).

Definition sample_vehicle (ccs2 : bool) : AustraliaVehicle znum :=
  {| vehicleConfig_id := "V1";
     ccuCCS2ProtocolSupport := ccs2;
     serverRates :=
       {| rates_max := ZInt (-1); rates_current := ZInt (-1);
          rates_reset := None; rates_updatedAt := None |};
     _status := None;
     issued := [] |}.

(** A service that answers every request with the same body and no
    rate-limit headers. *)
Definition answer (body : value znum) : HttpService znum :=
  fun _ => Ok {| statusCode := ZInt 200; headers := Some ∅; resp_body := body |}.

(** A legacy status body that reports the two partial ranges only. *)
Definition legacy_partial_ranges : value znum :=
  obj [("airTemp", obj [("value", VStr "02H"); ("unit", num_lit 0)]);
       ("time", VStr "20231114221320");
       ("evStatus", obj [("drvDistance", VArr [
          obj [("rangeByFuel", obj [
            ("evModeRange", obj [("value", num_lit 120)]);
            ("gasModeRange", obj [("value", num_lit 80)])])]])])].

Definition parsed_on : VehicleStatusInput :=
  {| input_refresh := None; input_parsed := Some true |}.

(** CCS2 bodies.  [ccs2_doors] builds the [Door] substructure from the four
    lock codes. *)
Definition ccs2_doors (driver passenger left right : Z) : value znum :=
  obj [("Row1", obj [("Driver", obj [("Lock", num_lit driver); ("Open", num_lit 0)]);
                     ("Passenger", obj [("Lock", num_lit passenger)])]);
       ("Row2", obj [("Left", obj [("Lock", num_lit left)]);
                     ("Right", obj [("Lock", num_lit right)])])].

(** A CCS2 body with all doors locked, a rear left tyre reporting code 2 and
    no [HVAC] substructure. *)
Definition ccs2_body (doors : value znum) : value znum :=
  obj [("lastUpdateTime", VStr "1700000000000");
       ("state", obj [("Vehicle", obj [
          ("Chassis", obj [("Axle", obj [
             ("Row2", obj [("Left", obj [("Tire", obj [("PressureLow", num_lit 2)])])]);
             ("Tire", obj [("PressureLow", num_lit 1)])])]);
          ("Cabin", obj [("Door", doors)])])])].

(** CCS2 bodies that lack [Vehicle], and [Chassis.Axle]. *)
Definition ccs2_no_vehicle : value znum := obj [("state", obj [])].
Definition ccs2_no_axle : value znum :=
  obj [("state", obj [("Vehicle", obj [
    ("Cabin", obj [("Door", ccs2_doors 1 1 1 1)])])])].

(** Legacy bodies: one whose rear left tyre lamp reports code 2, and one
    with [evStatus] but without [evStatus.drvDistance]. *)
Definition legacy_tire_code_2 : value znum :=
  obj [("airTemp", obj [("value", VStr "02H"); ("unit", num_lit 0)]);
       ("tirePressureLamp", obj [("tirePressureLampRL", num_lit 2)])].

Definition legacy_no_drvDistance : value znum :=
  obj [("airTemp", obj [("value", VStr "02H"); ("unit", num_lit 0)]);
       ("evStatus", obj [("batteryStatus", num_lit 80)])].

(** Responses with rate-limit headers: the three headers of the example,
    and a limit header that is there but empty. *)
Definition response_with (hs : gmap string string) : Response znum :=
  {| statusCode := ZInt 200; headers := Some hs; resp_body := obj [] |}.

Definition rate_headers : gmap string string :=
  <["x-ratelimit-limit" := "100"]>
  (<["x-ratelimit-remaining" := "42"]>
  (<["x-ratelimit-reset" := "1700000000"]> ∅)).

Definition empty_limit_header : gmap string string :=
  <["x-ratelimit-limit" := ""]>
  (<["x-ratelimit-remaining" := "42"]> ∅).

(** Trip queries: a date with a day, a response that lists one day with one
    trip of five minutes, and a response without [dayTripList]. *)
Definition november_14 : TripDate znum :=
  {| year := ZInt 2023; month := ZInt 11; day := Some (ZInt 14) |}.

Definition one_day_one_trip : value znum :=
  obj [("resMsg", obj [("dayTripList", VArr [
    obj [("tripDay", VStr "20231114");
         ("dayTripCnt", num_lit 1);
         ("tripList", VArr [
            obj [("tripTime", VStr "221320");
                 ("tripDrvTime", num_lit 5);
                 ("tripDist", num_lit 3)]])]])])].

Definition no_day_trip_list : value znum := obj [("resMsg", obj [])].

(** A table in the style of the spec: 17 to 27 degrees in steps of half a
    degree, twenty-one codes. *)
Definition sample_regions : gmap string TemperatureRange :=
  {[ "AU" := {| temp_start := Qc_of_Z 17; temp_step := (1 / 2)%Qp; temp_count := 21 |} ]}.

(** A service for the sample vehicle that knows no parked location: it
    answers the location request with an empty body object and every other
    request with an odometer reading. *)
Definition no_location_service : HttpService znum :=
  fun q =>
    if String.eqb (req_url q) "/api/v2/spa/vehicles/V1/location/park"
    then Ok {| statusCode := ZInt 200; headers := None; resp_body := obj [] |}
    else Ok {| statusCode := ZInt 200; headers := None;
               resp_body := obj [("resMsg", obj [("odometer", num_lit 12345)])] |}.

Definition nothing_cached : Cached znum :=
  {| _odometer := None; _location := None; _fullStatus := None |}.

Definition default_input : VehicleStatusInput :=
  {| input_refresh := None; input_parsed := None |}.

(** A monthly report that tells of tyre pressure monitoring and of a lit
    warning lamp, sent as the string the vendor uses. *)
Definition monthly_report_body : value znum :=
  obj [("resMsg", obj [("monthlyReport", obj [
    ("breakdown", VArr []);
    ("vehicleStatus", obj [
       ("tpmsSupport", num_lit 1);
       ("tirePressure", obj [("tirePressureLampAll", VStr "1")])])])])].

(** A drive history with one cumulated line and two dated lines, the second
    of them without a date. *)
Definition drive_history_body : value znum :=
  obj [("resMsg", obj [
    ("drivingInfo", VArr [obj [("drivingPeriod", num_lit 0)]]);
    ("drivingInfoDetail", VArr [
       obj [("drivingDate", VStr "20231114"); ("calculativeOdo", num_lit 12)];
       obj [("calculativeOdo", num_lit 7)]])])].

(** One body that serves the three requests of [fullStatus]. *)
Definition full_status_body : value znum :=
  obj [("resMsg", obj [
    ("odometer", num_lit 12345);
    ("gpsDetail", obj [("head", num_lit 90)])])].

(** The targets of a vehicle that charges fast up to 80 percent and slowly
    up to 100. *)
Definition charge_targets_body : value znum :=
  obj [("resMsg", obj [("targetSOClist", VArr [
    obj [("plugType", num_lit 0); ("targetSOClevel", num_lit 80)];
    obj [("plugType", num_lit 1); ("targetSOClevel", num_lit 100)]])])].

(** * Properties *)

(** ** Property reads and the error monad *)

Section Basics.
Context {num : Type} `{JsNumber num}.
Implicit Types (v : value num).

Lemma bind_Ok_inv {A B} (r : result A) (f : A -> result B) (b : B) :
  r ≫= f = Ok b -> exists a, r = Ok a /\ f a = Ok b.
Proof. destruct r as [a|e]; simpl; [eauto | discriminate]. Qed.

Lemma ToBoolean_not_nullish v : ToBoolean v = true -> nullish v = false.
Proof. now destruct v. Qed.

Lemma get_Ok v k : nullish v = false -> get v k = Ok (v ?. k).
Proof. unfold get. now intros ->. Qed.

Lemma get_Ok_inv v k x : get v k = Ok x -> nullish v = false /\ x = v ?. k.
Proof. unfold get. destruct (nullish v); [discriminate | now intros [= <-]]. Qed.

Lemma get_nullish v k : nullish v = true -> get v k = Throw TypeError.
Proof. unfold get. now intros ->. Qed.

Lemma path_Ok v k ks : nullish v = false -> path v k ks = Ok (opt_path (v ?. k) ks).
Proof. intros Hv. unfold path. now rewrite get_Ok. Qed.

Lemma path_nullish v k ks : nullish v = true -> path v k ks = Throw TypeError.
Proof. intros Hv. unfold path. now rewrite get_nullish. Qed.

Lemma is_1_Ok v k ks :
  nullish v = false -> is_1 v k ks = Ok (strict_equal_num (opt_path (v ?. k) ks) 1).
Proof. intros Hv. unfold is_1. now rewrite path_Ok. Qed.

Lemma safe_integer_small z : (Z.abs z <= 1000000)%Z -> safe_integer z.
Proof. unfold safe_integer. lia. Qed.

(** [v === 1] holds exactly of the Number 1. *)
Lemma strict_equal_num_1 v :
  strict_equal_num v 1 = true <-> v = VNum (num_of_Z 1).
Proof.
  split.
  - destruct v; simpl; try discriminate. intros E. f_equal. now apply num_equal_1.
  - intros ->. simpl. rewrite num_equal_of_Z by (apply safe_integer_small; lia).
    reflexivity.
Qed.
End Basics.

(** Peels the successful binds off a hypothesis [... = Ok _]. *)
Ltac invert_binds Hq :=
  repeat (apply bind_Ok_inv in Hq;
          let x := fresh "x" in
          let E := fresh "E" in
          destruct Hq as (x & E & Hq); simpl in Hq).

(** ** The range rule of [status()] *)

Section RangeRule.
Context {num : Type} `{JsNumber num} `{Imports num}.

Lemma status_Parsed_inv http now input (this this' : AustraliaVehicle num) st :
  status http now input this = (Ok (Parsed st), this') ->
  exists r body p,
    http {| req_method := "GET";
            req_url := status_url this (statusConfig input);
            req_body := VUndefined |} = Ok r /\
    get (resp_body r) "resMsg" = Ok body /\
    (if ccuCCS2ProtocolSupport this
     then parseCCS2VehicleStatus body else parseVehicleStatus body) = Ok p /\
    st = derive_range p.
Proof.
  unfold status, try_catch, http_get, http_call, updateRates, lift, throw,
    cache_status, get_this, mbind, M_bind. simpl.
  destruct (http _) as [r|e] eqn:Hr; [|discriminate].
  destruct (get (resp_body r) "resMsg") as [body|e] eqn:Hb; [|discriminate].
  destruct (nullish body); [discriminate|].
  destruct (if ccuCCS2ProtocolSupport this then _ else _) as [p|e] eqn:Hp;
    [|discriminate].
  destruct (default _ (input_parsed input)); [|discriminate].
  intros [= <- _]. exists r, body, p. auto.
Qed.

(** C1.  Every payload that [status()] normalises, under either protocol,
    comes back with [engine.range] as the range rule leaves it.  When the
    mapped [range] is falsy and one of [rangeEV], [rangeGas] is truthy, the
    returned [range] is [(rangeEV ?? 0) + (rangeGas ?? 0)]: the sum of the
    two Numbers, an absent one counting as 0.  When the mapped [range] is
    truthy (present and non-zero), it is returned unchanged.  In particular a
    falsy [range] with [rangeEV] 120 and [rangeGas] 80 gives 200.  Here [r]
    is the response, [body] its [resMsg] and [p] what the mapping of the
    vehicle's protocol makes of it. *)
Theorem status_range_rule http now input (this this' : AustraliaVehicle num)
    r body p st :
  status http now input this = (Ok (Parsed st), this') ->
  http {| req_method := "GET";
          req_url := status_url this (statusConfig input);
          req_body := VUndefined |} = Ok r ->
  get (resp_body r) "resMsg" = Ok body ->
  (if ccuCCS2ProtocolSupport this
   then parseCCS2VehicleStatus body else parseVehicleStatus body) = Ok p ->
  (ToBoolean (range (engine p)) = false ->
   ToBoolean (rangeEV (engine p)) || ToBoolean (rangeGas (engine p)) = true ->
   range (engine st) =
     js_add (rangeEV (engine p) ?? VNum (num_of_Z 0))
            (rangeGas (engine p) ?? VNum (num_of_Z 0)) /\
   (forall a b, rangeEV (engine p) = VNum a -> rangeGas (engine p) = VNum b ->
      range (engine st) = VNum (num_add a b)) /\
   (forall a, rangeEV (engine p) = VNum a -> nullish (rangeGas (engine p)) = true ->
      range (engine st) = VNum (num_add a (num_of_Z 0))) /\
   (forall b, nullish (rangeEV (engine p)) = true -> rangeGas (engine p) = VNum b ->
      range (engine st) = VNum (num_add (num_of_Z 0) b))) /\
  (ToBoolean (range (engine p)) = true -> range (engine st) = range (engine p)) /\
  (ToBoolean (range (engine p)) = false ->
   rangeEV (engine p) = VNum (num_of_Z 120) ->
   rangeGas (engine p) = VNum (num_of_Z 80) ->
   range (engine st) = VNum (num_of_Z 200)) /\
  rangeEV (engine st) = rangeEV (engine p) /\
  rangeGas (engine st) = rangeGas (engine p).
Proof.
  intros Hs Hr Hb Hp.
  destruct (status_Parsed_inv _ _ _ _ _ _ Hs) as (r0 & body0 & p0 & Hr0 & Hb0 & Hp0 & ->).
  rewrite Hr in Hr0. injection Hr0 as <-.
  rewrite Hb in Hb0. injection Hb0 as <-.
  rewrite Hp in Hp0. injection Hp0 as <-.
  unfold derive_range.
  split; [|split; [|split; [|split]]].
  - intros Hf Ht. rewrite Hf, Ht. simpl. split; [reflexivity|].
    split; [|split].
    + now intros a b -> ->.
    + intros a -> Hgas. unfold coalesce. now rewrite Hgas.
    + intros b Hev ->. unfold coalesce. now rewrite Hev.
  - intros Ht. now rewrite Ht.
  - intros Hf Hev Hgas. rewrite Hf, Hev, Hgas. simpl.
    rewrite !num_ToBoolean_of_Z by (apply safe_integer_small; lia). simpl.
    unfold js_add, coalesce, ToNumber. simpl.
    rewrite num_add_of_Z by (apply safe_integer_small; lia). reflexivity.
  - destruct (negb _); [destruct (_ || _)|]; reflexivity.
  - destruct (negb _); [destruct (_ || _)|]; reflexivity.
Qed.

(** [status()] does return the normalised status whenever the service
    answers with a body that the mapping accepts and the caller asked for
    the parsed form. *)
Lemma status_returns http now input (this : AustraliaVehicle num) r body p :
  http {| req_method := "GET";
          req_url := status_url this (statusConfig input);
          req_body := VUndefined |} = Ok r ->
  get (resp_body r) "resMsg" = Ok body ->
  nullish body = false ->
  (if ccuCCS2ProtocolSupport this
   then parseCCS2VehicleStatus body else parseVehicleStatus body) = Ok p ->
  parsed (statusConfig input) = true ->
  exists this', status http now input this = (Ok (Parsed (derive_range p)), this').
Proof.
  intros Hr Hb Hn Hp Hc.
  unfold status, try_catch, http_get, http_call, updateRates, lift, throw,
    cache_status, get_this, mbind, M_bind.
  rewrite Hr, Hb, Hn, Hp, Hc. eauto.
Qed.
End RangeRule.

(** The rule at work: a legacy body with [rangeEV] 120, [rangeGas] 80 and no
    total range comes back with [range] 200. *)
Lemma status_range_rule_witness :
  exists st this',
    status (answer (obj [("resMsg", legacy_partial_ranges)])) sample_time
      parsed_on (sample_vehicle false) = (Ok (Parsed st), this') /\
    range (engine st) = num_lit 200.
Proof.
  edestruct (status_range_rule (answer (obj [("resMsg", legacy_partial_ranges)]))
               sample_time parsed_on (sample_vehicle false))
    as (_ & _ & sum & _); [vm_compute; reflexivity ..|].
  eexists _, _. split; [vm_compute; reflexivity|].
  apply sum; reflexivity.
Defined.

(** ** The CCS2 mapping *)

Section CCS2.
Context {num : Type} `{JsNumber num} `{Imports num}.
Implicit Types (body : value num).

Lemma and_then_Ok (a b : bool) : and_then (Ok a) (Ok b) = Ok (a && b).
Proof. now destruct a. Qed.

(** What a successful CCS2 mapping tells about the payload and the fields
    the properties below are about. *)
Lemma parseCCS2_inv body st :
  parseCCS2VehicleStatus body = Ok st ->
  ToBoolean (vehicleState_of body) = true /\
  ToBoolean (axle_of body) = true /\
  ToBoolean (door_of body) = true /\
  locked (chassis st) =
    VBool (strict_equal_num (door_lock body "Row1" "Driver") 1
           && (strict_equal_num (door_lock body "Row1" "Passenger") 1
           && (strict_equal_num (door_lock body "Row2" "Left") 1
           && strict_equal_num (door_lock body "Row2" "Right") 1))) /\
  tirePressureWarningLamp (chassis st) =
    {| tire_rearLeft := strict_equal_num (wheel_pressure_low body "Row2" "Left") 1;
       tire_frontLeft := strict_equal_num (wheel_pressure_low body "Row1" "Left") 1;
       tire_frontRight := strict_equal_num (wheel_pressure_low body "Row1" "Right") 1;
       tire_rearRight := strict_equal_num (wheel_pressure_low body "Row2" "Right") 1;
       tire_all := strict_equal_num (axle_pressure_low body) 1 |} /\
  active (climate st) = VBool (negb (strict_equal_num (blower_speed_level body) 0)).
Proof.
  unfold parseCCS2VehicleStatus, door_lock, wheel_pressure_low, axle_pressure_low,
    blower_speed_level, vehicleState_of, axle_of, door_of. simpl.
  destruct (nullish body) eqn:Hbody.
  { rewrite (get_nullish body "state") by assumption. discriminate. }
  rewrite !get_Ok by assumption. simpl.
  set (vehicleState := body ?. "state" ?. "Vehicle").
  destruct (nullish vehicleState) eqn:Hvs.
  { rewrite (path_nullish vehicleState "Chassis") by assumption. discriminate. }
  rewrite !path_Ok by assumption. simpl.
  set (axle := vehicleState ?. "Chassis" ?. "Axle").
  set (door := vehicleState ?. "Cabin" ?. "Door").
  destruct (ToBoolean vehicleState) eqn:Tvs; simpl; [|discriminate].
  destruct (ToBoolean axle) eqn:Taxle; simpl; [|discriminate].
  destruct (ToBoolean door) eqn:Tdoor; simpl; [|discriminate].
  assert (nullish axle = false) by now apply ToBoolean_not_nullish.
  assert (nullish door = false) by now apply ToBoolean_not_nullish.
  rewrite !is_1_Ok by assumption. rewrite !and_then_Ok. simpl.
  intros [= <-]. simpl. repeat split; reflexivity.
Qed.

(** The CCS2 mapping returns a status as soon as the three substructures
    are there. *)
Lemma parseCCS2_returns body :
  ToBoolean (vehicleState_of body) = true ->
  ToBoolean (axle_of body) = true ->
  ToBoolean (door_of body) = true ->
  exists st, parseCCS2VehicleStatus body = Ok st.
Proof.
  unfold parseCCS2VehicleStatus, vehicleState_of, axle_of, door_of. simpl.
  intros Tvs Taxle Tdoor.
  assert (nullish body = false) as Hbody by (now destruct body).
  rewrite !get_Ok by assumption. simpl.
  assert (nullish (body ?. "state" ?. "Vehicle") = false)
    by now apply ToBoolean_not_nullish.
  rewrite !path_Ok by assumption. simpl.
  rewrite Tvs, Taxle, Tdoor. simpl.
  apply ToBoolean_not_nullish in Taxle, Tdoor.
  rewrite !is_1_Ok by assumption. rewrite !and_then_Ok. simpl. eauto.
Qed.
(** The three ranges of a CCS2 status are one vendor value, [DTE.Total]. *)
Lemma parseCCS2_ranges body st :
  parseCCS2VehicleStatus body = Ok st ->
  let total := opt_path (vehicleState_of body) ["Drivetrain"; "FuelSystem"; "DTE"; "Total"] in
  range (engine st) = total /\ rangeEV (engine st) = total /\ rangeGas (engine st) = total.
Proof.
  unfold parseCCS2VehicleStatus, vehicleState_of. simpl.
  destruct (nullish body) eqn:Hbody.
  { rewrite (get_nullish body "state") by assumption. discriminate. }
  rewrite !get_Ok by assumption. simpl.
  set (vehicleState := body ?. "state" ?. "Vehicle").
  destruct (nullish vehicleState) eqn:Hvs.
  { rewrite (path_nullish vehicleState "Chassis") by assumption. discriminate. }
  rewrite !path_Ok by assumption. simpl.
  set (axle := vehicleState ?. "Chassis" ?. "Axle").
  set (door := vehicleState ?. "Cabin" ?. "Door").
  destruct (ToBoolean vehicleState) eqn:Tvs; simpl; [|discriminate].
  destruct (ToBoolean axle) eqn:Taxle; simpl; [|discriminate].
  destruct (ToBoolean door) eqn:Tdoor; simpl; [|discriminate].
  assert (nullish axle = false) by now apply ToBoolean_not_nullish.
  assert (nullish door = false) by now apply ToBoolean_not_nullish.
  rewrite !is_1_Ok by assumption. rewrite !and_then_Ok. simpl.
  intros [= <-]. simpl. repeat split; reflexivity.
Qed.
End CCS2.

Section CCS2Properties.
Context {num : Type} `{JsNumber num} `{Imports num}.
Implicit Types (body : value num).

Lemma strict_equal_num_not_1 (v : value num) :
  v <> VNum (num_of_Z 1) -> strict_equal_num v 1 = false.
Proof.
  intros Hv. destruct (strict_equal_num v 1) eqn:E; [|reflexivity].
  now apply strict_equal_num_1 in E.
Qed.

(** C2.  The structural check of the CCS2 mapping, as the code has it.  A
    payload without [state.Vehicle] makes the mapping throw, but the error
    is the TypeError of reading [Chassis] off the missing value, raised
    before the check is reached, and not the error the check throws.  With
    [Vehicle] in place, a missing [Chassis.Axle] or [Cabin.Door] makes the
    check throw its "missing vehicle state" error. *)
Theorem parseCCS2_missing_substructure body :
  (nullish (vehicleState_of body) = true ->
     parseCCS2VehicleStatus body = Throw TypeError /\
     TypeError <> missing_vehicle_state) /\
  (nullish (vehicleState_of body) = false ->
     ToBoolean (axle_of body) = false \/ ToBoolean (door_of body) = false ->
     parseCCS2VehicleStatus body = Throw missing_vehicle_state).
Proof.
  unfold parseCCS2VehicleStatus, vehicleState_of, axle_of, door_of. simpl.
  destruct (nullish body) eqn:Hbody.
  { rewrite (get_nullish body "state") by assumption. simpl. split.
    - intros _. split; [reflexivity | discriminate].
    - now destruct body. }
  rewrite (get_Ok body "state") by assumption. simpl.
  split.
  - intros Hvs. split; [|discriminate].
    now rewrite (path_nullish _ "Chassis") by assumption.
  - intros Hvs Hmiss. rewrite !path_Ok by assumption. simpl.
    destruct Hmiss as [-> | ->]; simpl.
    + now rewrite orb_true_r.
    + now rewrite orb_true_r.
Qed.

(** C8.  For a payload that passes the structural check, [chassis.locked]
    is true exactly when the lock codes of the four doors all are the
    Number 1, and false as soon as one of them is not. *)
Theorem ccs2_locked_iff_all_doors_locked body st :
  parseCCS2VehicleStatus body = Ok st ->
  (locked (chassis st) = VBool true <->
     door_lock body "Row1" "Driver" = VNum (num_of_Z 1) /\
     door_lock body "Row1" "Passenger" = VNum (num_of_Z 1) /\
     door_lock body "Row2" "Left" = VNum (num_of_Z 1) /\
     door_lock body "Row2" "Right" = VNum (num_of_Z 1)) /\
  (door_lock body "Row1" "Driver" <> VNum (num_of_Z 1) \/
   door_lock body "Row1" "Passenger" <> VNum (num_of_Z 1) \/
   door_lock body "Row2" "Left" <> VNum (num_of_Z 1) \/
   door_lock body "Row2" "Right" <> VNum (num_of_Z 1) ->
   locked (chassis st) = VBool false).
Proof.
  intros Hst. destruct (parseCCS2_inv _ _ Hst) as (_ & _ & _ & -> & _).
  split.
  - rewrite <- !strict_equal_num_1. split.
    + intros [= E]. now rewrite !andb_true_iff in E.
    + intros (-> & -> & -> & ->). reflexivity.
  - intros Hne. f_equal.
    destruct Hne as [N | [N | [N | N]]];
      rewrite (strict_equal_num_not_1 _ N); now rewrite ?andb_false_r.
Qed.

(** C10.  For a payload that the CCS2 mapping accepts and in which the
    driver's blower speed level is absent, [climate.active] is true:
    undefined is not strictly equal to 0. *)
Theorem ccs2_active_when_blower_absent body st :
  parseCCS2VehicleStatus body = Ok st ->
  blower_speed_level body = VUndefined ->
  active (climate st) = VBool true.
Proof.
  intros Hst Habsent.
  destruct (parseCCS2_inv _ _ Hst) as (_ & _ & _ & _ & _ & ->).
  now rewrite Habsent.
Qed.
End CCS2Properties.

(** A body without [state.Vehicle] ends in a TypeError, one without
    [Chassis.Axle] in the error of the check. *)
Lemma parseCCS2_missing_substructure_witness :
  parseCCS2VehicleStatus ccs2_no_vehicle = Throw TypeError /\
  parseCCS2VehicleStatus ccs2_no_axle = Throw missing_vehicle_state.
Proof.
  split.
  - apply (parseCCS2_missing_substructure ccs2_no_vehicle). reflexivity.
  - apply (parseCCS2_missing_substructure ccs2_no_axle);
      [reflexivity | left; reflexivity].
Defined.

(** All four doors locked: locked.  The rear right door unlocked: not locked. *)
Lemma ccs2_locked_witness :
  (exists st, parseCCS2VehicleStatus (ccs2_body (ccs2_doors 1 1 1 1)) = Ok st /\
              locked (chassis st) = VBool true) /\
  (exists st, parseCCS2VehicleStatus (ccs2_body (ccs2_doors 1 1 1 0)) = Ok st /\
              locked (chassis st) = VBool false).
Proof.
  split; eexists; (split; [vm_compute; reflexivity|]).
  - eapply (ccs2_locked_iff_all_doors_locked (ccs2_body (ccs2_doors 1 1 1 1)));
      [vm_compute; reflexivity | repeat split; reflexivity].
  - eapply (ccs2_locked_iff_all_doors_locked (ccs2_body (ccs2_doors 1 1 1 0)));
      [vm_compute; reflexivity | right; right; right; discriminate].
Defined.

(** A body without [HVAC] comes back with the climate active. *)
Lemma ccs2_active_witness :
  exists st, parseCCS2VehicleStatus (ccs2_body (ccs2_doors 1 1 1 1)) = Ok st /\
             blower_speed_level (ccs2_body (ccs2_doors 1 1 1 1)) = VUndefined /\
             active (climate st) = VBool true.
Proof.
  eexists. split; [vm_compute; reflexivity|]. split; [reflexivity|].
  eapply (ccs2_active_when_blower_absent (ccs2_body (ccs2_doors 1 1 1 1)));
    [vm_compute; reflexivity | reflexivity].
Defined.

(** ** The legacy mapping *)

Section Legacy.
Context {num : Type} `{JsNumber num} `{Imports num}.
Implicit Types (body : value num).

(** What a successful legacy mapping tells about the tyre lamps. *)
Lemma parseVehicleStatus_inv body st :
  parseVehicleStatus body = Ok st ->
  nullish body = false /\
  tirePressureWarningLamp (chassis st) =
    {| tire_rearLeft := ToBoolean (tire_lamp body "tirePressureLampRL");
       tire_frontLeft := ToBoolean (tire_lamp body "tirePressureLampFL");
       tire_frontRight := ToBoolean (tire_lamp body "tirePressureLampFR");
       tire_rearRight := ToBoolean (tire_lamp body "tirePressureLampRR");
       tire_all := ToBoolean (tire_lamp body "tirePressureWarningLampAll") |}.
Proof.
  unfold parseVehicleStatus, tire_lamp.
  destruct (nullish body) eqn:Hbody.
  { rewrite (get_nullish body "hoodOpen") by assumption. discriminate. }
  rewrite !get_Ok, !path_Ok by assumption. simpl.
  intros Hq. invert_binds Hq.
  injection Hq as <-. split; reflexivity.
Qed.

(** C3.  The legacy mapping, as the code has it, does throw: with
    [evStatus] present and [evStatus.drvDistance] absent, reading index 0
    of the missing list raises a TypeError (unless the temperature
    converter, called earlier, has thrown already), and no status comes
    back. *)
Theorem parseVehicleStatus_throws_without_drvDistance body :
  nullish body = false ->
  nullish (body ?. "evStatus") = false ->
  nullish (body ?. "evStatus" ?. "drvDistance") = true ->
  (forall st, parseVehicleStatus body <> Ok st) /\
  (parseVehicleStatus body = Throw TypeError \/
   exists e, tempCodeToCelsius REGIONS_AU (opt_path body ["airTemp"; "value"]) = Throw e /\
             parseVehicleStatus body = Throw e).
Proof.
  intros Hbody Hev Hdrv.
  assert (parseVehicleStatus body = Throw TypeError \/
          exists e, tempCodeToCelsius REGIONS_AU (opt_path body ["airTemp"; "value"])
                      = Throw e /\ parseVehicleStatus body = Throw e) as Hthrow.
  { unfold parseVehicleStatus, rangeByFuel, drvDistance0.
    rewrite !get_Ok, !path_Ok by assumption. simpl.
    destruct (tempCodeToCelsius _ _) as [t|e] eqn:Ht; simpl; [left | right; eauto].
    rewrite Hev. simpl. rewrite (get_Ok (body ?. "evStatus")) by assumption. simpl.
    destruct (body ?. "evStatus" ?. "drvDistance"); try discriminate; reflexivity. }
  split; [|exact Hthrow].
  intros st Hst. rewrite Hst in Hthrow.
  destruct Hthrow as [? | (e & _ & ?)]; discriminate.
Qed.
End Legacy.

(** A body with [evStatus] and no [drvDistance] is answered by a TypeError. *)
Lemma parseVehicleStatus_throws_witness :
  parseVehicleStatus legacy_no_drvDistance = Throw TypeError /\
  forall st, parseVehicleStatus legacy_no_drvDistance <> Ok st.
Proof.
  split; [vm_compute; reflexivity|].
  apply (parseVehicleStatus_throws_without_drvDistance legacy_no_drvDistance);
    reflexivity.
Defined.

(** ** Tyre pressure flags *)

Section TireFlags.
Context {num : Type} `{JsNumber num} `{Imports num}.

(** C7, as the code has it.  In the CCS2 mapping each of the five tyre
    pressure flags is the equality test of the vendor code against 1, which
    holds of the Number 1 only, so that code 2 gives false.  In the legacy
    mapping each of the five flags is the truthiness of the vendor code, so
    that code 2 gives true. *)
Theorem tire_pressure_flags (body : value num) (st : VehicleStatus num) :
  (parseCCS2VehicleStatus body = Ok st ->
   tirePressureWarningLamp (chassis st) =
     {| tire_rearLeft := strict_equal_num (wheel_pressure_low body "Row2" "Left") 1;
        tire_frontLeft := strict_equal_num (wheel_pressure_low body "Row1" "Left") 1;
        tire_frontRight := strict_equal_num (wheel_pressure_low body "Row1" "Right") 1;
        tire_rearRight := strict_equal_num (wheel_pressure_low body "Row2" "Right") 1;
        tire_all := strict_equal_num (axle_pressure_low body) 1 |}) /\
  (forall code : value num,
     strict_equal_num code 1 = true <-> code = VNum (num_of_Z 1)) /\
  strict_equal_num (VNum (num_of_Z 2) : value num) 1 = false /\
  (parseVehicleStatus body = Ok st ->
   tirePressureWarningLamp (chassis st) =
     {| tire_rearLeft := ToBoolean (tire_lamp body "tirePressureLampRL");
        tire_frontLeft := ToBoolean (tire_lamp body "tirePressureLampFL");
        tire_frontRight := ToBoolean (tire_lamp body "tirePressureLampFR");
        tire_rearRight := ToBoolean (tire_lamp body "tirePressureLampRR");
        tire_all := ToBoolean (tire_lamp body "tirePressureWarningLampAll") |}) /\
  ToBoolean (VNum (num_of_Z 2) : value num) = true.
Proof.
  split; [|split; [|split; [|split]]].
  - intros Hst. now destruct (parseCCS2_inv _ _ Hst) as (_ & _ & _ & _ & -> & _).
  - apply strict_equal_num_1.
  - simpl. now rewrite num_equal_of_Z by (apply safe_integer_small; lia).
  - intros Hst. now destruct (parseVehicleStatus_inv _ _ Hst) as (_ & ->).
  - simpl. now rewrite num_ToBoolean_of_Z by (apply safe_integer_small; lia).
Qed.
End TireFlags.

(** The rear left tyre reports code 2: the CCS2 mapping leaves the flag down,
    the legacy mapping raises it. *)
Lemma tire_pressure_flags_witness :
  (exists st, parseCCS2VehicleStatus (ccs2_body (ccs2_doors 1 1 1 1)) = Ok st /\
              tire_rearLeft (tirePressureWarningLamp (chassis st)) = false) /\
  (exists st, parseVehicleStatus legacy_tire_code_2 = Ok st /\
              tire_rearLeft (tirePressureWarningLamp (chassis st)) = true).
Proof.
  split; eexists; (split; [vm_compute; reflexivity|]).
  - edestruct (tire_pressure_flags (ccs2_body (ccs2_doors 1 1 1 1))) as (flags & _).
    rewrite flags; [reflexivity | vm_compute; reflexivity].
  - edestruct (tire_pressure_flags legacy_tire_code_2) as (_ & _ & _ & flags & _).
    rewrite flags; [reflexivity | vm_compute; reflexivity].
Defined.

(** C7 fails on the legacy mapping: the rear left lamp carries the vendor
    code 2, the equality test of that code against 1 is false, and the flag
    is up all the same. *)
Lemma tire_pressure_flags_counterexample :
  exists st,
    parseVehicleStatus legacy_tire_code_2 = Ok st /\
    tire_lamp legacy_tire_code_2 "tirePressureLampRL" = num_lit 2 /\
    tire_rearLeft (tirePressureWarningLamp (chassis st)) = true /\
    tire_rearLeft (tirePressureWarningLamp (chassis st)) <>
      strict_equal_num (tire_lamp legacy_tire_code_2 "tirePressureLampRL") 1.
Proof.
  eexists. split; [vm_compute; reflexivity|].
  split; [reflexivity|]. split; [reflexivity|]. vm_compute. discriminate.
Qed.

(** ** The rate tracker *)

Section RateTracker.
Context {num : Type} `{JsNumber num}.

Lemma decimal_acc_app (s t : string) (acc : Z) :
  decimal_acc acc (s ++ t) = decimal_acc (decimal_acc acc s) t.
Proof. revert acc. induction s as [|c s IH]; intros acc; simpl; [reflexivity | apply IH]. Qed.

Lemma all_digits_app (s t : string) :
  all_digits (s ++ t) = all_digits s && all_digits t.
Proof. induction s as [|c s IH]; simpl; [reflexivity|]. now rewrite IH, andb_assoc. Qed.

(** Appending "000" to a string of digits multiplies its value by 1000:
    this is how the code turns Unix seconds into milliseconds. *)
Lemma decimal_value_000 (s : string) :
  decimal_value (s ++ "000") = (1000 * decimal_value s)%Z.
Proof.
  unfold decimal_value. rewrite decimal_acc_app.
  cbn [decimal_acc]. change (digit_value "0") with 0%Z. lia.
Qed.

Lemma decimal_acc_nonneg (s : string) (acc : Z) :
  (0 <= acc)%Z -> all_digits s = true -> (0 <= decimal_acc acc s)%Z.
Proof.
  revert acc. induction s as [|c s IH]; intros acc Hacc Hd; simpl in *; [assumption|].
  apply andb_true_iff in Hd as [Hc Hs]. apply IH; [|assumption].
  unfold is_digit in Hc. apply andb_true_iff in Hc as [Hc _].
  apply Nat.leb_le in Hc. unfold digit_value. lia.
Qed.

Lemma append_not_empty (s t : string) : t <> "" -> s ++ t <> "".
Proof. destruct s; simpl; [tauto | discriminate]. Qed.

Lemma ToBoolean_VStr (s : string) :
  ToBoolean (VStr s : value num) = true <-> s <> "".
Proof.
  simpl. destruct (String.eqb_spec s ""); simpl; split; intros; congruence.
Qed.
End RateTracker.

Section RateContract.
Context {num : Type} `{JsNumber num} `{Imports num}.

Lemma with_serverRates_same (this : AustraliaVehicle num) :
  with_serverRates (serverRates this) this = this.
Proof. now destruct this. Qed.

Lemma StringToNumber_small (s : string) :
  s <> "" -> all_digits s = true -> (decimal_value s <= max_time_value)%Z ->
  StringToNumber s = num_of_Z (decimal_value s).
Proof.
  intros Hs Hd Hle. apply StringToNumber_decimal; try assumption.
  pose proof (decimal_acc_nonneg s 0 (Z.le_refl 0) Hd) as Hpos.
  fold (decimal_value s) in Hpos.
  unfold safe_integer, max_time_value in *. lia.
Qed.

(** C4, as the code has it.  [updateRates] hands the response back.  When
    the limit header is there with a non-empty value, [max] becomes its
    numeric value, [current] the numeric value of the remaining header (NaN
    when that header is missing), [updatedAt] the current time, and [reset],
    only when the reset header
    is there with a non-empty value, the Date whose time value is the
    number read off the header followed by "000": for a header of decimal
    digits, its seconds times 1000.  When the limit header is absent or
    empty, the handle is left as it was.  The headers 100, 42 and
    1700000000 give max 100, current 42 and reset 2023-11-14T22:13:20Z. *)
Theorem updateRates_contract (now : Date num) (resp : Response num)
    (this : AustraliaVehicle num) :
  let this' := snd (updateRates now resp this) in
  let rates := serverRates this in
  let rates' := serverRates this' in
  fst (updateRates now resp this) = Ok resp /\
  (forall limit, header resp "x-ratelimit-limit" = VStr limit -> limit <> "" ->
     rates_max rates' = StringToNumber limit /\
     rates_current rates' = ToNumber (header resp "x-ratelimit-remaining") /\
     (forall remaining, header resp "x-ratelimit-remaining" = VStr remaining ->
        rates_current rates' = StringToNumber remaining) /\
     (header resp "x-ratelimit-remaining" = VUndefined ->
        rates_current rates' = num_NaN) /\
     rates_updatedAt rates' = Some now /\
     (forall reset, header resp "x-ratelimit-reset" = VStr reset -> reset <> "" ->
        rates_reset rates' = Some (mkDate (TimeClip (StringToNumber (reset ++ "000")))) /\
        (all_digits reset = true ->
         (1000 * decimal_value reset <= max_time_value)%Z ->
         rates_reset rates' = Some (mkDate (num_of_Z (1000 * decimal_value reset))))) /\
     (ToBoolean (header resp "x-ratelimit-reset") = false ->
        rates_reset rates' = rates_reset rates)) /\
  (ToBoolean (header resp "x-ratelimit-limit") = false -> this' = this) /\
  (header resp "x-ratelimit-limit" = VStr "100" ->
   header resp "x-ratelimit-remaining" = VStr "42" ->
   header resp "x-ratelimit-reset" = VStr "1700000000" ->
   rates' = {| rates_max := num_of_Z 100;
               rates_current := num_of_Z 42;
               rates_reset := Some (mkDate (num_of_Z 1700000000000));
               rates_updatedAt := Some now |} /\
   utc_of_ms 1700000000000 = ((2023, 11, 14), (22, 13, 20))%Z).
Proof.
  cbn zeta. unfold updateRates, observe. simpl.
  split; [reflexivity|]. split; [|split].
  - intros limit Hlimit Hne.
    rewrite Hlimit. rewrite (proj2 (ToBoolean_VStr limit) Hne). simpl.
    split; [reflexivity|]. split; [reflexivity|].
    split; [now intros remaining ->|]. split; [now intros ->|].
    split; [reflexivity|]. split.
    + intros reset Hreset Hr.
      rewrite Hreset. rewrite (proj2 (ToBoolean_VStr reset) Hr).
      split; [reflexivity|].
      intros Hd Hle. unfold Date_new, ToNumber. simpl.
      rewrite StringToNumber_small.
      * rewrite decimal_value_000, TimeClip_of_Z; [reflexivity|].
        pose proof (decimal_acc_nonneg reset 0 (Z.le_refl 0) Hd) as Hpos.
        fold (decimal_value reset) in Hpos. lia.
      * now apply append_not_empty.
      * rewrite all_digits_app, Hd. reflexivity.
      * now rewrite decimal_value_000.
    + now intros ->.
  - intros ->. apply with_serverRates_same.
  - intros -> -> ->. split; [|reflexivity]. simpl.
    unfold Date_new, ToNumber. simpl.
    change ("1700000000" ++ "000") with "1700000000000".
    rewrite (StringToNumber_small "100")
      by (vm_compute; (discriminate || reflexivity)).
    rewrite (StringToNumber_small "42")
      by (vm_compute; (discriminate || reflexivity)).
    rewrite (StringToNumber_small "1700000000000")
      by (vm_compute; (discriminate || reflexivity)).
    rewrite TimeClip_of_Z by (vm_compute; discriminate).
    reflexivity.
Qed.
End RateContract.

(** The example of the rate tracker, run on the sample handle. *)
Lemma updateRates_contract_witness :
  header (response_with rate_headers) "x-ratelimit-limit" = VStr "100" /\
  serverRates (snd (updateRates sample_time (response_with rate_headers)
                      (sample_vehicle false))) =
    {| rates_max := ZInt 100;
       rates_current := ZInt 42;
       rates_reset := Some (mkDate (ZInt 1700000000000));
       rates_updatedAt := Some sample_time |}.
Proof.
  split; [reflexivity|].
  destruct (updateRates_contract sample_time (response_with rate_headers)
              (sample_vehicle false)) as (_ & _ & _ & example).
  apply (proj1 (example eq_refl eq_refl eq_refl)).
Defined.

(** C4 fails for a limit header that is present but empty: its numeric value
    is 0, yet [max] is not set to it, [current] is not set to the 42 of the
    remaining header and no update time is set: the rates are the prior
    ones. *)
Lemma updateRates_counterexample :
  let resp := response_with empty_limit_header in
  let this := sample_vehicle false in
  let this' := snd (updateRates sample_time resp this) in
  (exists hs, headers resp = Some hs /\ hs !! "x-ratelimit-limit" = Some "") /\
  rates_max (serverRates this') <> ToNumber (header resp "x-ratelimit-limit") /\
  rates_current (serverRates this') <> ToNumber (header resp "x-ratelimit-remaining") /\
  rates_updatedAt (serverRates this') <> Some sample_time /\
  serverRates this' = serverRates this.
Proof.
  cbn zeta. split; [eexists; split; reflexivity|].
  repeat split; try reflexivity; vm_compute; discriminate.
Qed.

(** ** Charge targets *)

Section ChargeTargets.
Context {num : Type} `{JsNumber num} `{Imports num}.

(** C5.  When [fast] or [slow] is not among the allowed values,
    [setChargeTargets] throws the error that lists them and leaves the
    handle as it was: no request has been issued.  When both are allowed,
    exactly one request is issued; it carries both targets, the fast one
    first, and the method returns as soon as the service answers. *)
Theorem setChargeTargets_validation (http : HttpService num) (now : Date num)
    (fast slow : num) (this : AustraliaVehicle num) :
  (includes POSSIBLE_CHARGE_LIMIT_VALUES fast = false \/
   includes POSSIBLE_CHARGE_LIMIT_VALUES slow = false ->
   setChargeTargets http now fast slow this =
     (Throw (ManagedBluelinkyError
        ("Charge target values are limited to " ++
         String.concat ", " (List.map NumberToString POSSIBLE_CHARGE_LIMIT_VALUES))),
      this)) /\
  (includes POSSIBLE_CHARGE_LIMIT_VALUES fast = true ->
   includes POSSIBLE_CHARGE_LIMIT_VALUES slow = true ->
   let request := charge_target_request this fast slow in
   issued (snd (setChargeTargets http now fast slow this)) =
     (issued this ++ [request])%list /\
   req_body request ?. "targetSOClist" =
     VArr [targetSOC EVChargeModeTypes_FAST fast; targetSOC EVChargeModeTypes_SLOW slow] /\
   (forall r, http request = Ok r ->
      fst (setChargeTargets http now fast slow this) = Ok tt) /\
   (forall e, http request = Throw e ->
      fst (setChargeTargets http now fast slow this) =
        Throw (manageBluelinkyError e "AustraliaVehicle.setChargeTargets"))).
Proof.
  unfold setChargeTargets. split.
  - intros [-> | ->]; simpl; rewrite ?orb_true_r; reflexivity.
  - intros -> ->. cbn zeta. simpl.
    unfold try_catch, http_call, updateRates, throw, get_this, mbind, M_bind, mret, M_ret.
    destruct (http (charge_target_request this fast slow)) as [r|e] eqn:Hr; simpl.
    + repeat split; try reflexivity; intros ? [=]; reflexivity.
    + repeat split; try reflexivity; intros ? [=]; subst; reflexivity.
Qed.
End ChargeTargets.

(** Fast 50 and slow 90 are sent together; fast 55 is refused with the list
    of the allowed values, and nothing is sent. *)
Lemma setChargeTargets_validation_witness :
  (let sent := setChargeTargets (answer (obj [])) sample_time (ZInt 50) (ZInt 90)
                 (sample_vehicle false) in
   fst sent = Ok tt /\
   issued (snd sent) = [charge_target_request (sample_vehicle false) (ZInt 50) (ZInt 90)]) /\
  setChargeTargets (answer (obj [])) sample_time (ZInt 55) (ZInt 90) (sample_vehicle false) =
    (Throw (ManagedBluelinkyError
       "Charge target values are limited to 50, 60, 70, 80, 90, 100"),
     sample_vehicle false).
Proof.
  split.
  - destruct (setChargeTargets_validation (answer (obj [])) sample_time (ZInt 50) (ZInt 90)
                (sample_vehicle false)) as (_ & sends).
    destruct (sends eq_refl eq_refl) as (log & _ & returns & _).
    split; [apply (returns _ eq_refl) | exact log].
  - exact (proj1 (setChargeTargets_validation (answer (obj [])) sample_time
                    (ZInt 55) (ZInt 90) (sample_vehicle false))
                 (or_introl eq_refl)).
Defined.

(** ** Trip queries *)

Section TripQueries.
Context {num : Type} `{JsNumber num} `{Imports num}.

Lemma mapM_Ok_Forall2 {A B} (f : A -> result B) (l : list A) (k : list B) :
  mapM f l = Ok k -> Forall2 (fun x y => f x = Ok y) l k.
Proof.
  revert k. induction l as [|x l IH]; intros k; simpl.
  - intros [= <-]. constructor.
  - intros Hq. apply bind_Ok_inv in Hq as (y & Hy & Hq).
    apply bind_Ok_inv in Hq as (k' & Hk' & Hq). injection Hq as <-.
    constructor; [assumption | now apply IH].
Qed.

Lemma mapM_Ok_Forall {A B} (f : A -> result B) (P : B -> Prop) (l : list A)
    (k : list B) :
  (forall x y, f x = Ok y -> P y) -> mapM f l = Ok k -> Forall P k.
Proof.
  intros Hf Hq. apply mapM_Ok_Forall2 in Hq.
  induction Hq; constructor; eauto.
Qed.

Lemma mapM_Ok_length {A B} (f : A -> result B) (l : list A) (k : list B) :
  mapM f l = Ok k -> length k = length l.
Proof. intros Hq. apply mapM_Ok_Forall2 in Hq. symmetry. eapply Forall2_length, Hq. Qed.

(** The end of a trip is [addMinutes(start, trip.tripDrvTime)], and the
    drive duration of the trip is that same [trip.tripDrvTime]. *)
Lemma day_trip_end (d trip : value num) (t : Trip num) :
  day_trip d trip = Ok t ->
  trip_end t = addMinutes (trip_start t) (durations_drive (trip_durations t)).
Proof.
  unfold day_trip. intros Hq.
  invert_binds Hq.
  injection Hq as <-. simpl. congruence.
Qed.

Lemma day_trips_end (d : value num) (dt : VehicleDayTrip num) :
  day_trips d = Ok dt ->
  Forall (fun t => trip_end t =
                     addMinutes (trip_start t) (durations_drive (trip_durations t)))
         (trips dt).
Proof.
  unfold day_trips. intros Hq.
  invert_binds Hq.
  injection Hq as <-. simpl.
  destruct (as_array _).
  - eapply mapM_Ok_Forall; [|eassumption]. intros trip t. apply day_trip_end.
  - match goal with E : Ok [] = Ok _ |- _ => injection E as <- end. constructor.
Qed.

(** On whole numbers [addMinutes] adds 60000 milliseconds a minute. *)
Lemma addMinutes_of_Z (s m : Z) :
  (Z.abs s <= max_time_value)%Z -> (Z.abs m <= 100000000)%Z ->
  (Z.abs (s + 60000 * m) <= max_time_value)%Z ->
  addMinutes (mkDate (num_of_Z s)) (VNum (num_of_Z m)) =
    mkDate (num_of_Z (s + 60000 * m)).
Proof.
  unfold max_time_value. intros Hs Hm Hsum. unfold addMinutes, ToNumber. simpl.
  rewrite num_mul_of_Z by (unfold safe_integer; lia).
  rewrite num_add_of_Z by (unfold safe_integer; lia).
  rewrite TimeClip_of_Z by (unfold max_time_value; lia).
  f_equal. f_equal. lia.
Qed.

(** C6, as the code has it.  Whenever [tripInfo] returns, the service has
    answered and the shape of the result follows the truthiness of the day
    of the query.  Without a day (or with day 0) it is a [TripMonth] whose
    aggregate speeds are those of the response and whose [days] list has an
    entry for each element of [tripDayList].  With a day it is an array of
    [TripDay] values, one for each element of [dayTripList], when the
    response holds that list, and undefined when it does not; the end of
    every trip of every day is [addMinutes] of its start and its drive
    duration, that is the start moved on by 60000 milliseconds a minute. *)
Theorem tripInfo_modes (http : HttpService num) (now : Date num)
    (current : num * num) (date_arg : option (TripDate num))
    (this this' : AustraliaVehicle num) (result : TripInfo num) :
  tripInfo http now current date_arg this = (Ok result, this') ->
  let date := default {| year := fst current; month := snd current; day := None |}
                      date_arg in
  exists response,
    http (tripinfo_request this date) = Ok response /\
    (day_truthy date = false ->
     exists m, result = TripMonth m /\
       speed_avg (month_speed m) = opt_path (resp_body response) ["resMsg"; "tripAvgSpeed"] /\
       speed_max (month_speed m) = opt_path (resp_body response) ["resMsg"; "tripMaxSpeed"] /\
       length (days m) =
         match as_array (opt_path (resp_body response) ["resMsg"; "tripDayList"]) with
         | Some items => length items
         | None => 0%nat
         end) /\
    (day_truthy date = true ->
     match as_array (opt_path (resp_body response) ["resMsg"; "dayTripList"]) with
     | Some items =>
         exists l, result = TripDays l /\ length l = length items /\
           Forall (fun d =>
             Forall (fun t =>
               trip_end t =
                 addMinutes (trip_start t) (durations_drive (trip_durations t)))
               (trips d)) l
     | None => result = TripUndefined
     end) /\
    (forall s m : Z,
       (Z.abs s <= max_time_value)%Z -> (Z.abs m <= 100000000)%Z ->
       (Z.abs (s + 60000 * m) <= max_time_value)%Z ->
       addMinutes (mkDate (num_of_Z s)) (VNum (num_of_Z m)) =
         mkDate (num_of_Z (s + 60000 * m))).
Proof.
  cbn zeta. set (date := default _ date_arg).
  unfold tripInfo. fold date.
  unfold try_catch, http_call, updateRates, lift, throw, get_this, mbind, M_bind.
  destruct (http (tripinfo_request this date)) as [response|e] eqn:Hr; [|discriminate].
  intros Hq. exists response. split; [reflexivity|].
  split; [|split; [|exact addMinutes_of_Z]].
  - intros Hday. rewrite Hday in Hq. simpl in Hq.
    unfold month_trip in Hq.
    destruct (get (resp_body response) "resMsg") as [rawData|e] eqn:Hb;
      [|discriminate].
    apply get_Ok_inv in Hb as [_ ->]. simpl in Hq.
    destruct (as_array _) as [items|] eqn:Harr.
    + destruct (mapM month_day items) as [x_days|e] eqn:Hm; [|discriminate].
      injection Hq as <- _. eexists. split; [reflexivity|]. simpl.
      repeat split. now apply mapM_Ok_length in Hm.
    + injection Hq as <- _. eexists. split; [reflexivity|]. simpl.
      repeat split.
  - intros Hday. rewrite Hday in Hq. simpl in Hq.
    unfold day_trip_list in Hq.
    destruct (get (resp_body response) "resMsg") as [resMsg|e] eqn:Hb;
      [|discriminate].
    apply get_Ok_inv in Hb as [_ ->]. simpl in Hq.
    destruct (get _ "dayTripList") as [rawData|e] eqn:Hd; [|discriminate].
    apply get_Ok_inv in Hd as [_ ->]. simpl in Hq.
    destruct (as_array _) as [items|] eqn:Harr.
    + destruct (mapM day_trips items) as [x_days|e] eqn:Hm; [|discriminate].
      injection Hq as <- _. exists x_days. split; [reflexivity|].
      split; [now apply mapM_Ok_length in Hm|].
      eapply mapM_Ok_Forall; [|exact Hm]. intros d dt. apply day_trips_end.
    + now injection Hq as <- _.
Qed.
End TripQueries.

(** A query for 14 November 2023 answered with one trip of five minutes: the
    result is an array of days, and the trip ends 300000 ms after its start. *)
Lemma tripInfo_modes_witness :
  exists l this',
    tripInfo (answer one_day_one_trip) sample_time (ZInt 2023, ZInt 11)
      (Some november_14) (sample_vehicle false) = (Ok (TripDays l), this') /\
    Forall (fun d =>
      Forall (fun t =>
        trip_end t = addMinutes (trip_start t) (durations_drive (trip_durations t)))
        (trips d)) l /\
    List.map (fun d => List.map (fun t => (trip_start t, trip_end t)) (trips d)) l =
      [[(mkDate (ZInt 20231114221320), mkDate (ZInt 20231114521320))]].
Proof.
  eexists _, _. split; [vm_compute; reflexivity|].
  split; [|vm_compute; reflexivity].
  edestruct (tripInfo_modes (answer one_day_one_trip) sample_time (ZInt 2023, ZInt 11)
               (Some november_14) (sample_vehicle false))
    as (response & Hresponse & _ & days_mode & _); [vm_compute; reflexivity|].
  injection Hresponse as <-.
  destruct (days_mode eq_refl) as (l & Hl & _ & Hall).
  injection Hl as <-. exact Hall.
Defined.

(** C6 fails for a response without [dayTripList]: the query names a day, and
    the method returns undefined, not an array of days. *)
Lemma tripInfo_counterexample :
  let returned := fst (tripInfo (answer no_day_trip_list) sample_time
                         (ZInt 2023, ZInt 11) (Some november_14) (sample_vehicle false)) in
  day november_14 = Some (ZInt 14) /\
  returned = Ok TripUndefined /\
  forall l, returned <> Ok (TripDays l).
Proof.
  cbn zeta. split; [reflexivity|]. split; [vm_compute; reflexivity|].
  intros l. vm_compute. discriminate.
Qed.

(** ** Region temperature tables *)

Lemma celsius_at_inj (r : TemperatureRange) (i j : nat) :
  celsius_at r i = celsius_at r j -> i = j.
Proof.
  unfold celsius_at. set (step := Qp_to_Qc (temp_step r)). intros E.
  assert ((Qc_of_Z (Z.of_nat i) - Qc_of_Z (Z.of_nat j)) * step = 0)%Qc as Hz.
  { replace ((Qc_of_Z (Z.of_nat i) - Qc_of_Z (Z.of_nat j)) * step)%Qc
      with ((temp_start r + Qc_of_Z (Z.of_nat i) * step)
            - (temp_start r + Qc_of_Z (Z.of_nat j) * step))%Qc by ring.
    rewrite E. ring. }
  apply Qcmult_integral in Hz as [Hz | Hz].
  - apply Nat2Z.inj, Z2Qc_inj.
    replace (Qc_of_Z (Z.of_nat i))
      with (Qc_of_Z (Z.of_nat i) - Qc_of_Z (Z.of_nat j) + Qc_of_Z (Z.of_nat j))%Qc
      by ring.
    rewrite Hz. ring.
  - pose proof (Qp_prf (temp_step r)) as Hpos. fold step in Hpos.
    apply Qclt_not_eq in Hpos. congruence.
Qed.

Lemma find_code (r : TemperatureRange) (code a n : nat) :
  (a <= code < a + n)%nat ->
  List.find (fun e : nat * Qc => Nat.eqb (fst e) code)
    (List.map (fun c => (c, celsius_at r c)) (seq a n)) = Some (code, celsius_at r code).
Proof.
  revert a. induction n as [|n IH]; intros a Hr; simpl; [lia|].
  destruct (Nat.eqb_spec a code) as [-> | Hne]; [reflexivity|].
  apply IH. lia.
Qed.

Lemma find_celsius (r : TemperatureRange) (code a n : nat) :
  (a <= code < a + n)%nat ->
  List.find (fun e : nat * Qc => bool_decide (snd e = celsius_at r code))
    (List.map (fun c => (c, celsius_at r c)) (seq a n)) = Some (code, celsius_at r code).
Proof.
  revert a. induction n as [|n IH]; intros a Hr; simpl; [lia|].
  case_bool_decide as Heq.
  - apply celsius_at_inj in Heq as ->. reflexivity.
  - apply IH. assert (a <> code) by (intros ->; now apply Heq). lia.
Qed.

Lemma in_table_inv (r : TemperatureRange) (c : Qc) :
  In c (List.map snd (temperature_table r)) ->
  exists code, (code < temp_count r)%nat /\ c = celsius_at r code.
Proof.
  unfold temperature_table. rewrite List.map_map. simpl.
  intros Hin. apply in_map_iff in Hin as (code & <- & Hcode).
  apply in_seq in Hcode. exists code. split; [lia | reflexivity].
Qed.

(** C9.  For every region of the table the two converters are inverse to
    each other on the table: a Celsius value that the table holds has a code,
    and that code reads back as the very same value (a difference of zero,
    below any step); every code of the table has a Celsius value, and that
    value is converted back to the same code. *)
Theorem temperature_round_trip (regions : gmap string TemperatureRange)
    (region : string) (r : TemperatureRange) :
  regions !! region = Some r ->
  (forall c, In c (List.map snd (temperature_table r)) ->
     exists code, celsiusToCode regions region c = Some code /\
                  codeToCelsius regions region code = Some c) /\
  (forall code, (code < temp_count r)%nat ->
     exists c, codeToCelsius regions region code = Some c /\
               celsiusToCode regions region c = Some code).
Proof.
  intros Hr. unfold celsiusToCode, codeToCelsius, temperature_table.
  rewrite Hr. simpl. split.
  - intros c Hc. apply in_table_inv in Hc as (code & Hcode & ->).
    exists code. rewrite find_celsius, find_code by lia.
    split; reflexivity.
  - intros code Hcode. exists (celsius_at r code).
    rewrite find_celsius, find_code by lia.
    split; reflexivity.
Qed.

(** In the sample table 22.5 degrees is code 11 and code 11 is 22.5 degrees. *)
Lemma temperature_round_trip_witness :
  sample_regions !! "AU" =
    Some {| temp_start := Qc_of_Z 17; temp_step := (1 / 2)%Qp; temp_count := 21 |} /\
  exists c, codeToCelsius sample_regions "AU" 11 = Some c /\
            celsiusToCode sample_regions "AU" c = Some 11%nat.
Proof.
  split; [reflexivity|].
  apply (temperature_round_trip sample_regions "AU"
           {| temp_start := Qc_of_Z 17; temp_step := (1 / 2)%Qp; temp_count := 21 |});
    [reflexivity | simpl; lia].
Defined.

(** ** Further properties of the two mappings and of the handle *)

Section Further.
Context {num : Type} `{JsNumber num} `{Imports num}.
Implicit Types (body : value num).

(** X1.  The CCS2 mapping returns a status exactly for the bodies in which
    [state.Vehicle], [Chassis.Axle] and [Cabin.Door] are truthy. *)
Theorem parseCCS2_returns_iff body :
  (exists st, parseCCS2VehicleStatus body = Ok st) <->
  ToBoolean (vehicleState_of body) = true /\
  ToBoolean (axle_of body) = true /\
  ToBoolean (door_of body) = true.
Proof.
  split.
  - intros [st Hst]. destruct (parseCCS2_inv _ _ Hst) as (? & ? & ? & _). auto.
  - intros (? & ? & ?). now apply parseCCS2_returns.
Qed.

(** X2.  Under CCS2 the range rule of [status()] never fires: the three
    ranges are the same vendor value, so a falsy [range] comes with falsy
    partial ranges. *)
Theorem derive_range_ccs2 body st :
  parseCCS2VehicleStatus body = Ok st ->
  range (engine st) = rangeEV (engine st) /\
  range (engine st) = rangeGas (engine st) /\
  derive_range st = st.
Proof.
  intros Hst. destruct (parseCCS2_ranges _ _ Hst) as (Hr & Hev & Hgas).
  cbn zeta in *. split; [congruence|]. split; [congruence|].
  unfold derive_range. rewrite Hr, Hev, Hgas.
  destruct (ToBoolean _); reflexivity.
Qed.

(** X3.  The legacy mapping does return a status for a body without
    [evStatus] and without [time], provided the temperature converter
    accepts the code:
    the ranges of the electric drive are undefined, the range on fuel is
    [dte.value], the plug is reported unplugged and there is no update time. *)
Theorem parseVehicleStatus_returns body t :
  nullish body = false ->
  nullish (body ?. "evStatus") = true ->
  ToBoolean (body ?. "time") = false ->
  tempCodeToCelsius REGIONS_AU (opt_path body ["airTemp"; "value"]) = Ok t ->
  exists st,
    parseVehicleStatus body = Ok st /\
    range (engine st) = VUndefined /\
    rangeEV (engine st) = VUndefined /\
    rangeGas (engine st) = opt_path body ["dte"; "value"] /\
    plugedTo (engine st) = EVPlugTypes_UNPLUGED /\
    temperatureSetpoint (climate st) = t /\
    lastupdate st = None.
Proof.
  intros Hbody Hev Htime Ht.
  unfold parseVehicleStatus, rangeByFuel, drvDistance0.
  rewrite !get_Ok, !path_Ok by assumption. simpl in Ht |- *.
  rewrite Ht, Hev, Htime. simpl.
  eexists. split; [reflexivity|]. simpl.
  destruct (body ?. "evStatus"); try discriminate; repeat split; reflexivity.
Qed.

End Further.

(** The sample CCS2 body is accepted, and the range rule leaves it alone. *)
Lemma derive_range_ccs2_witness :
  exists st, parseCCS2VehicleStatus (ccs2_body (ccs2_doors 1 1 1 1)) = Ok st /\
             derive_range st = st.
Proof.
  eexists. split; [vm_compute; reflexivity|].
  eapply (derive_range_ccs2 (ccs2_body (ccs2_doors 1 1 1 1))). vm_compute; reflexivity.
Defined.

(** The legacy body without [evStatus] is mapped. *)
Lemma parseVehicleStatus_returns_witness :
  exists st, parseVehicleStatus legacy_tire_code_2 = Ok st /\
             plugedTo (engine st) = num_lit 0.
Proof.
  destruct (parseVehicleStatus_returns legacy_tire_code_2 (num_lit 22))
    as (st & Hst & _ & _ & _ & Hplug & _); [reflexivity ..|].
  exists st. split; [exact Hst | exact Hplug].
Defined.

(** ** How the rate tracker composes, and what [status()] caches *)

Section RatesAndCache.
Context {num : Type} `{JsNumber num} `{Imports num}.

(** X5.  The rate tracker keeps no history, with one exception.  After two
    responses in a row the handle differs from the start in [serverRates]
    only.  When the second response has a non-empty limit header, [max],
    [current] and [updatedAt] are those of the second response alone; with a
    non-empty reset header as well the whole of [serverRates] is what the
    second response alone would have given, but without one the [reset] of
    the earlier state is carried over beside the new figures.  A second
    response without a limit header changes nothing. *)
Theorem updateRates_last_write_wins (now1 now2 : Date num) (resp1 resp2 : Response num)
    (this : AustraliaVehicle num) :
  let this1 := snd (updateRates now1 resp1 this) in
  let this2 := snd (updateRates now2 resp2 this1) in
  (vehicleConfig_id this2 = vehicleConfig_id this /\
   ccuCCS2ProtocolSupport this2 = ccuCCS2ProtocolSupport this /\
   _status this2 = _status this /\
   issued this2 = issued this) /\
  (ToBoolean (header resp2 "x-ratelimit-limit") = true ->
   rates_max (serverRates this2) = ToNumber (header resp2 "x-ratelimit-limit") /\
   rates_current (serverRates this2) = ToNumber (header resp2 "x-ratelimit-remaining") /\
   rates_updatedAt (serverRates this2) = Some now2 /\
   (ToBoolean (header resp2 "x-ratelimit-reset") = true ->
    serverRates this2 = serverRates (snd (updateRates now2 resp2 this))) /\
   (ToBoolean (header resp2 "x-ratelimit-reset") = false ->
    rates_reset (serverRates this2) = rates_reset (serverRates this1))) /\
  (ToBoolean (header resp2 "x-ratelimit-limit") = false -> this2 = this1).
Proof.
  cbn zeta. unfold updateRates, observe. simpl.
  split; [repeat split; reflexivity|]. split.
  - intros ->. repeat split; try reflexivity.
    + now intros ->.
    + now intros ->.
  - intros ->. now destruct this.
Qed.

(** X6.  [status()] issues exactly one request and writes [_status] on
    success only: when it returns a value, [_status] is that value; when it
    throws, [_status] is what it was before.  The rates, however, follow the
    response whenever the service has answered, also when the method throws
    afterwards; a rejected request leaves them alone. *)
Theorem status_caches_on_success_only (http : HttpService num) (now : Date num)
    (input : VehicleStatusInput) (this this' : AustraliaVehicle num)
    (outcome : result (StatusValue num)) :
  status http now input this = (outcome, this') ->
  let request := {| req_method := "GET";
                    req_url := status_url this (statusConfig input);
                    req_body := VUndefined |} in
  issued this' = (issued this ++ [request])%list /\
  match outcome with
  | Ok returned => _status this' = Some returned
  | Throw _ => _status this' = _status this
  end /\
  (forall r, http request = Ok r ->
     serverRates this' = observe now r (serverRates this)) /\
  (forall e, http request = Throw e ->
     serverRates this' = serverRates this /\
     outcome = Throw (manageBluelinkyError e "AustraliaVehicle.status")).
Proof.
  cbn zeta.
  unfold status, try_catch, http_get, http_call, updateRates, lift, throw,
    cache_status, get_this, mbind, M_bind. simpl.
  destruct (http _) as [r|e] eqn:Hr.
  - destruct (get (resp_body r) "resMsg") as [body|e] eqn:Hb.
    + destruct (nullish body).
      * intros [= <- <-]. simpl. repeat split; intros; simplify_eq; reflexivity.
      * destruct (if ccuCCS2ProtocolSupport this then _ else _) as [p|e];
          intros [= <- <-]; simpl; repeat split; intros; simplify_eq; reflexivity.
    + intros [= <- <-]. simpl. repeat split; intros; simplify_eq; reflexivity.
  - intros [= <- <-]. simpl. repeat split; intros; simplify_eq; reflexivity.
Qed.

(** X7.  Asking [status()] for the raw body does not bypass the mapping.
    With [parsed] off and a body in the response, the raw body is returned
    only if the mapping of the vehicle's protocol accepts it; when the
    mapping throws, [status()] throws that error, as managed, and no raw
    body comes back. *)
Theorem status_raw_needs_mapping (http : HttpService num) (now : Date num)
    (input : VehicleStatusInput) (this : AustraliaVehicle num) r body :
  parsed (statusConfig input) = false ->
  http {| req_method := "GET";
          req_url := status_url this (statusConfig input);
          req_body := VUndefined |} = Ok r ->
  get (resp_body r) "resMsg" = Ok body ->
  nullish body = false ->
  let mapped := if ccuCCS2ProtocolSupport this
                then parseCCS2VehicleStatus body else parseVehicleStatus body in
  (forall p, mapped = Ok p -> fst (status http now input this) = Ok (Raw body)) /\
  (forall e, mapped = Throw e ->
     fst (status http now input this) =
       Throw (manageBluelinkyError e "AustraliaVehicle.status")).
Proof.
  intros Hc Hr Hb Hn. cbn zeta.
  unfold status, try_catch, http_get, http_call, updateRates, lift, throw,
    cache_status, get_this, mbind, M_bind.
  rewrite Hr, Hb, Hn, Hc. simpl.
  split; intros x ->; reflexivity.
Qed.
End RatesAndCache.

(** A failing mapping under CCS2: one request, nothing cached. *)
Lemma status_caches_on_success_only_witness :
  exists outcome this',
    status (answer (obj [("resMsg", ccs2_no_vehicle)])) sample_time parsed_on
      (sample_vehicle true) = (outcome, this') /\
    outcome = Throw TypeError /\
    _status this' = None /\
    length (issued this') = 1%nat.
Proof.
  eexists _, _. split; [vm_compute; reflexivity|].
  split; [reflexivity|].
  edestruct (status_caches_on_success_only (answer (obj [("resMsg", ccs2_no_vehicle)]))
               sample_time parsed_on (sample_vehicle true)) as (Hissued & Hcache & _);
    [vm_compute; reflexivity|].
  split; [exact Hcache | now rewrite Hissued].
Defined.

(** The raw body of a CCS2 response without [state.Vehicle] cannot be had. *)
Lemma status_raw_needs_mapping_witness :
  fst (status (answer (obj [("resMsg", ccs2_no_vehicle)])) sample_time
         {| input_refresh := None; input_parsed := Some false |} (sample_vehicle true)) =
    Throw TypeError.
Proof.
  edestruct (status_raw_needs_mapping (answer (obj [("resMsg", ccs2_no_vehicle)]))
               sample_time {| input_refresh := None; input_parsed := Some false |}
               (sample_vehicle true)) as (_ & throws);
    [reflexivity | reflexivity | vm_compute; reflexivity | reflexivity |].
  apply (throws TypeError). vm_compute. reflexivity.
Defined.

(** ** [fullStatus], [odometer] and [location] *)

Section FullStatus.
Context {num : Type} `{JsNumber num} `{Imports num}.

(** X8.  [fullStatus] never resolves to null: the value [odometer()] hands
    it is always an object, so the early [return null] is never taken.
    Whenever [fullStatus] returns, it returns the value it has stored in
    [_fullStatus]; it has issued three requests, for the status, the parked
    location and the monthly report of the current month, in this order; the
    odometer of the result has unit 0 and is the one stored in [_odometer];
    [_location] and [_status] are not written. *)
Theorem fullStatus_never_null (http : HttpService num) (now1 now2 now3 : Date num)
    (current : num * num) (input : VehicleStatusInput)
    (h h' : AustraliaVehicle num * Cached num) returned :
  fullStatus http now1 now2 now3 current input h = (Ok returned, h') ->
  exists full,
    returned = Some full /\
    _fullStatus (snd h') = Some full /\
    _odometer (snd h') = Some (full_odometer full) /\
    odometer_unit (full_odometer full) = num_of_Z 0 /\
    _location (snd h') = _location (snd h) /\
    _status (fst h') = _status (fst h) /\
    issued (fst h') =
      (issued (fst h) ++
       [ {| req_method := "GET";
            req_url := fullStatus_url (fst h) (statusConfig input);
            req_body := VUndefined |};
         {| req_method := "GET";
            req_url := vehicle_url (fst h) "/location/park";
            req_body := VUndefined |};
         monthlyreport_request (fst h) current ])%list.
Proof.
  destruct h as [this c].
  unfold fullStatus, odometer, try_catch_C, on_vehicle, lift_C, throw_C,
    cache_fullStatus, cache_odometer, http_get, http_call, updateRates, get_this,
    mbind, MC_bind, mret, MC_ret. simpl.
  destruct (http _) as [r1|e]; simpl; [|discriminate].
  destruct (http _) as [r2|e]; simpl; [|discriminate].
  destruct (http _) as [r3|e]; simpl; [|discriminate].
  destruct (result_bind _ _ _ (get (resp_body r3) "resMsg")) as [x_value|e]; simpl;
    [|discriminate].
  destruct (result_bind _ _ _ (get (resp_body r2) "resMsg")) as [x_location|e]; simpl;
    [|discriminate].
  destruct (get (resp_body r1) "resMsg") as [x_status|e]; simpl; [|discriminate].
  intros [= <- <-]. eexists. simpl. repeat split.
  now rewrite <- !app_assoc.
Qed.
End FullStatus.

Section FullStatusFailure.
Context {num : Type} `{JsNumber num} `{Imports num}.

(** X9.  [fullStatus] can fail half way with a cache already written.  When
    the three requests are answered, the monthly report has its [resMsg],
    but the location response has none, [fullStatus] throws the TypeError of
    reading [gpsDetail] off the missing value, as managed; by then
    [odometer()] has stored the new reading in [_odometer], which stays,
    while [_fullStatus] keeps its old value. *)
Theorem fullStatus_partial_update (http : HttpService num) (now1 now2 now3 : Date num)
    (current : num * num) (input : VehicleStatusInput)
    (this : AustraliaVehicle num) (c : Cached num) r1 r2 r3 :
  http {| req_method := "GET";
          req_url := fullStatus_url this (statusConfig input);
          req_body := VUndefined |} = Ok r1 ->
  http {| req_method := "GET";
          req_url := vehicle_url this "/location/park";
          req_body := VUndefined |} = Ok r2 ->
  http (monthlyreport_request this current) = Ok r3 ->
  nullish (opt_path (resp_body r3) ["resMsg"]) = false ->
  nullish (resp_body r2) = false ->
  nullish (opt_path (resp_body r2) ["resMsg"]) = true ->
  exists this' c',
    fullStatus http now1 now2 now3 current input (this, c) =
      (Throw (manageBluelinkyError TypeError "AustraliaVehicle.fullStatus"), (this', c')) /\
    _odometer c' =
      Some {| odometer_unit := num_of_Z 0;
              odometer_value := opt_path (resp_body r3) ["resMsg"; "odometer"] |} /\
    _fullStatus c' = _fullStatus c /\
    _location c' = _location c.
Proof.
  intros Hr1 Hr2 Hr3 Hodo Hbody Hloc. simpl in Hodo, Hloc.
  assert (nullish (resp_body r3) = false) as Hbody3 by (now destruct (resp_body r3)).
  unfold fullStatus, odometer, try_catch_C, on_vehicle, lift_C, throw_C,
    cache_fullStatus, cache_odometer, http_get, http_call, updateRates, get_this,
    mbind, MC_bind, mret, MC_ret. simpl.
  rewrite Hr1. simpl. rewrite Hr2. simpl.
  change (monthlyreport_request _ current) with (monthlyreport_request this current).
  rewrite Hr3. simpl.
  rewrite (get_Ok (resp_body r3)) by assumption. simpl.
  rewrite (get_Ok (resp_body r3 ?. "resMsg")) by assumption. simpl.
  rewrite (get_Ok (resp_body r2)) by assumption. simpl.
  rewrite (get_nullish (resp_body r2 ?. "resMsg")) by assumption. simpl.
  eexists _, _. repeat split.
Qed.

(** X10.  [location()] does not fail on a response without position.  Once
    the service has answered with a body, it returns a location, stores it
    in [_location] and leaves the other caches alone; each field is read
    along its optional path under [resMsg?.gpsDetail], so that a missing
    [resMsg] or [gpsDetail] gives a location whose six fields are all
    undefined. *)
Theorem location_tolerates_missing_position (http : HttpService num) (now : Date num)
    (this : AustraliaVehicle num) (c : Cached num) r :
  http {| req_method := "GET";
          req_url := vehicle_url this "/location/park";
          req_body := VUndefined |} = Ok r ->
  nullish (resp_body r) = false ->
  let data := opt_path (resp_body r) ["resMsg"; "gpsDetail"] in
  exists loc this' c',
    location http now (this, c) = (Ok loc, (this', c')) /\
    _location c' = Some loc /\
    _odometer c' = _odometer c /\
    _fullStatus c' = _fullStatus c /\
    loc = {| latitude := opt_path data ["coord"; "lat"];
             longitude := opt_path data ["coord"; "lon"];
             altitude := opt_path data ["coord"; "alt"];
             location_speed_unit := opt_path data ["speed"; "unit"];
             location_speed_value := opt_path data ["speed"; "value"];
             heading := opt_path data ["head"] |} /\
    (nullish data = true ->
     loc = {| latitude := VUndefined; longitude := VUndefined; altitude := VUndefined;
              location_speed_unit := VUndefined; location_speed_value := VUndefined;
              heading := VUndefined |}).
Proof.
  intros Hr Hbody. cbn zeta.
  unfold location, try_catch_C, on_vehicle, lift_C, throw_C, cache_location,
    http_get, http_call, updateRates, get_this, mbind, MC_bind, mret, MC_ret. simpl.
  rewrite Hr. simpl. rewrite path_Ok by assumption. simpl.
  eexists _, _, _. repeat split.
  intros Hdata. now destruct (resp_body r ?. "resMsg" ?. "gpsDetail").
Qed.

Lemma append_cancel_l (p a b : string) : p ++ a = p ++ b -> a = b.
Proof. induction p as [|ch p IH]; simpl; [auto|]. intros [= E]. auto. Qed.

(** X11.  [fullStatus] and [status()] read the [refresh] option in opposite
    ways.  For a vehicle on the legacy protocol the two methods ask the same
    URL exactly when their [refresh] options differ: [status()] appends
    [/latest] when [refresh] is off, [fullStatus] when it is on.  For a
    vehicle on CCS2 they never ask the same URL, since [fullStatus] asks the
    legacy status path whatever the protocol. *)
Theorem fullStatus_url_vs_status (this : AustraliaVehicle num)
    (cfg cfg' : VehicleStatusOptions) :
  (ccuCCS2ProtocolSupport this = false ->
   (fullStatus_url this cfg = status_url this cfg' <-> refresh cfg = negb (refresh cfg'))) /\
  (ccuCCS2ProtocolSupport this = true ->
   fullStatus_url this cfg <> status_url this cfg').
Proof.
  unfold fullStatus_url, status_url, vehicle_url. split; intros ->.
  - destruct (refresh cfg), (refresh cfg'); simpl; split; intros E;
      try reflexivity; try discriminate;
      apply append_cancel_l, append_cancel_l in E; discriminate.
  - destruct (refresh cfg), (refresh cfg'); simpl; intros E;
      apply append_cancel_l, append_cancel_l in E; discriminate.
Qed.
End FullStatusFailure.

(** The service without a parked location: [fullStatus] throws, and the
    odometer reading has been cached all the same. *)
Lemma fullStatus_partial_update_witness :
  exists this' c',
    fullStatus no_location_service sample_time sample_time sample_time
      (ZInt 2023, ZInt 11) default_input (sample_vehicle false, nothing_cached) =
      (Throw TypeError, (this', c')) /\
    _odometer c' = Some {| odometer_unit := ZInt 0; odometer_value := num_lit 12345 |} /\
    _fullStatus c' = None.
Proof.
  edestruct (fullStatus_partial_update no_location_service sample_time sample_time
               sample_time (ZInt 2023, ZInt 11) default_input (sample_vehicle false)
               nothing_cached) as (this' & c' & Hthrows & Hodo & Hfull & _);
    [reflexivity ..|].
  exists this', c'. split; [exact Hthrows|]. split; [exact Hodo | exact Hfull].
Defined.

(** The same service asked for the location: all fields undefined, no error. *)
Lemma location_tolerates_missing_position_witness :
  exists loc h',
    location no_location_service sample_time (sample_vehicle false, nothing_cached) =
      (Ok loc, h') /\
    latitude loc = VUndefined /\ heading loc = VUndefined.
Proof.
  edestruct (location_tolerates_missing_position no_location_service sample_time
               (sample_vehicle false) nothing_cached)
    as (loc & this' & c' & Hloc & _ & _ & _ & _ & Hundef); [reflexivity ..|].
  exists loc, (this', c'). split; [exact Hloc|].
  rewrite (Hundef eq_refl). split; reflexivity.
Defined.

(** ** Door and charge commands *)

Section Commands.
Context {num : Type} `{JsNumber num} `{Imports num}.
Variable manageThrownString : string -> string -> exn.

(** X12.  [lock()] and [unlock()] return exactly when the service answers
    the request, whatever the status code: with status 200 they return the
    text of success, with any other status the text 'Something went wrong!',
    which is returned and not thrown. *)
Theorem door_commands_report_failure_as_text (http : HttpService num) (now : Date num)
    (deviceId : value num) (this : AustraliaVehicle num) :
  let close := action_request this "/control/door" "close" deviceId in
  let open := action_request this "/control/door" "open" deviceId in
  (forall r, http close = Ok r ->
     exists this',
       lock http now deviceId this =
         (Ok (if is_200 r then "Lock successful" else "Something went wrong!"), this') /\
       serverRates this' = observe now r (serverRates this)) /\
  (forall s this', lock http now deviceId this = (Ok s, this') ->
     exists r, http close = Ok r /\
       (s = "Lock successful" <-> is_200 r = true) /\
       (s = "Something went wrong!" <-> is_200 r = false)) /\
  (forall r, http open = Ok r ->
     exists this',
       unlock http now deviceId this =
         (Ok (if is_200 r then "Unlock successful" else "Something went wrong!"), this') /\
       serverRates this' = observe now r (serverRates this)) /\
  (forall s this', unlock http now deviceId this = (Ok s, this') ->
     exists r, http open = Ok r /\
       (s = "Unlock successful" <-> is_200 r = true) /\
       (s = "Something went wrong!" <-> is_200 r = false)).
Proof.
  cbn zeta.
  unfold lock, unlock, try_catch, http_call, updateRates, get_this, throw, mbind,
    M_bind, mret, M_ret. simpl.
  split; [|split; [|split]].
  - intros r ->. simpl. eauto.
  - intros s this'. destruct (http _) as [r|e]; simpl; [|discriminate].
    intros [= <- <-]. exists r. split; [reflexivity|].
    destruct (is_200 r); split; split; (reflexivity || discriminate).
  - intros r ->. simpl. eauto.
  - intros s this'. destruct (http _) as [r|e]; simpl; [|discriminate].
    intros [= <- <-]. exists r. split; [reflexivity|].
    destruct (is_200 r); split; split; (reflexivity || discriminate).
Qed.

(** X13.  [startCharge()] and [stopCharge()] return nothing but the text of
    success, and only after an answer with status 200; an answer with
    another status makes them throw, and the rates are updated from that
    answer all the same. *)
Theorem charge_commands_return_only_success (http : HttpService num) (now : Date num)
    (deviceId : value num) (this : AustraliaVehicle num) :
  let start := action_request this "/control/charge" "start" deviceId in
  let stop := action_request this "/control/charge" "stop" deviceId in
  (forall s this', startCharge manageThrownString http now deviceId this = (Ok s, this') ->
     s = "Start charge successful" /\
     exists r, http start = Ok r /\ is_200 r = true) /\
  (forall r, http start = Ok r -> is_200 r = false ->
     exists this',
       startCharge manageThrownString http now deviceId this =
         (Throw (manageThrownString "Something went wrong!" "AustraliaVehicle.startCharge"),
          this') /\
       serverRates this' = observe now r (serverRates this)) /\
  (forall s this', stopCharge manageThrownString http now deviceId this = (Ok s, this') ->
     s = "Stop charge successful" /\
     exists r, http stop = Ok r /\ is_200 r = true) /\
  (forall r, http stop = Ok r -> is_200 r = false ->
     exists this',
       stopCharge manageThrownString http now deviceId this =
         (Throw (manageThrownString "Something went wrong!" "AustraliaVehicle.stopCharge"),
          this') /\
       serverRates this' = observe now r (serverRates this)).
Proof.
  cbn zeta.
  unfold startCharge, stopCharge, charge_command, http_call, updateRates, mbind, M_bind.
  simpl. split; [|split; [|split]].
  - intros s this'. destruct (http _) as [r|e]; simpl; [|discriminate].
    destruct (is_200 r) eqn:E; [|discriminate]. intros [= <- <-]. eauto.
  - intros r -> Hr. simpl. rewrite Hr. eauto.
  - intros s this'. destruct (http _) as [r|e]; simpl; [|discriminate].
    destruct (is_200 r) eqn:E; [|discriminate]. intros [= <- <-]. eauto.
  - intros r -> Hr. simpl. rewrite Hr. eauto.
Qed.
End Commands.

(** ** Reports and histories *)

Section Reports.
Context {num : Type} `{JsNumber num} `{Imports num}.

Lemma StringToNumber_1 : StringToNumber "1" = num_of_Z 1.
Proof.
  rewrite StringToNumber_decimal; [reflexivity | discriminate | reflexivity |].
  apply safe_integer_small. vm_compute. discriminate.
Qed.

(** X14.  The vehicle status of a monthly report.  [tpms] is true or
    undefined, never false: a falsy [tpmsSupport] is reported as undefined.
    [tirePressure.all] compares the vendor lamp loosely with the string
    '1': a string lamp counts exactly when it is '1', a Number lamp exactly
    when it is 1, and a missing lamp does not count. *)
Theorem monthlyReport_vehicleStatus (http : HttpService num) (now : Date num)
    (current : num * num) (month_arg : option (num * num))
    (this this' : AustraliaVehicle num) rep vs :
  monthlyReport http now current month_arg this = (Ok (Some rep), this') ->
  report_vehicleStatus rep = Some vs ->
  exists r,
    http (monthlyreport_request this (default current month_arg)) = Ok r /\
    let vehicleStatus := opt_path (resp_body r) ["resMsg"; "monthlyReport"; "vehicleStatus"] in
    let lamp := opt_path vehicleStatus ["tirePressure"; "tirePressureLampAll"] in
    ToBoolean vehicleStatus = true /\
    tpms vs <> Some false /\
    (tpms vs = None <-> ToBoolean (vehicleStatus ?. "tpmsSupport") = false) /\
    (forall s, lamp = VStr s -> (tirePressure_all vs = true <-> s = "1")) /\
    (forall z, safe_integer z -> lamp = VNum (num_of_Z z) ->
       (tirePressure_all vs = true <-> z = 1%Z)) /\
    (nullish lamp = true -> tirePressure_all vs = false).
Proof.
  unfold monthlyReport, try_catch, http_call, updateRates, get_this, throw, lift,
    mbind, M_bind, mret, M_ret. simpl.
  destruct (http _) as [r|e]; simpl; [|discriminate].
  unfold path. destruct (get (resp_body r) "resMsg") as [resMsg|e] eqn:Hget;
    simpl; [|discriminate].
  apply get_Ok_inv in Hget as [_ ->].
  set (rawData := resp_body r ?. "resMsg" ?. "monthlyReport").
  destruct (ToBoolean rawData); [|discriminate].
  intros [= <- <-]. unfold monthly_report_of. simpl.
  set (vehicleStatus := rawData ?. "vehicleStatus").
  destruct (ToBoolean vehicleStatus) eqn:Hvs; [|discriminate].
  intros [= <-]. exists r. split; [reflexivity|]. simpl.
  set (lamp := vehicleStatus ?. "tirePressure" ?. "tirePressureLampAll").
  split; [exact Hvs|].
  destruct (ToBoolean (vehicleStatus ?. "tpmsSupport")) eqn:Htpms; simpl.
  - split; [discriminate|].
    split; [split; [discriminate | intros E; change (ToBoolean (vehicleStatus ?. "tpmsSupport")
      = false) in E; congruence]|].
    split; [|split].
    + intros s E. change (lamp = VStr s) in E. rewrite E. simpl. apply String.eqb_eq.
    + intros z Hz E. change (lamp = VNum (num_of_Z z)) in E. rewrite E. simpl.
      rewrite StringToNumber_1, num_equal_of_Z.
      * apply Z.eqb_eq.
      * assumption.
      * apply safe_integer_small. vm_compute. discriminate.
    + intros E. change (nullish lamp = true) in E. now destruct lamp.
  - split; [discriminate|]. split; [split; [intros _; exact Htpms | reflexivity]|].
    split; [|split].
    + intros s E. change (lamp = VStr s) in E. rewrite E. simpl. apply String.eqb_eq.
    + intros z Hz E. change (lamp = VNum (num_of_Z z)) in E. rewrite E. simpl.
      rewrite StringToNumber_1, num_equal_of_Z.
      * apply Z.eqb_eq.
      * assumption.
      * apply safe_integer_small. vm_compute. discriminate.
    + intros E. change (nullish lamp = true) in E. now destruct lamp.
Qed.

(** X15.  [driveHistory] is the one method that does not hand its response
    to [updateRates]: whatever the service answers, and whether the method
    returns or throws, [serverRates] and the cached status are as before
    and exactly one request has been issued. *)
Theorem driveHistory_leaves_rates (http : HttpService num) (period : value num)
    (this : AustraliaVehicle num) :
  let this' := snd (driveHistory http period this) in
  serverRates this' = serverRates this /\
  _status this' = _status this /\
  issued this' = (issued this ++ [drvhistory_request this period])%list.
Proof.
  cbn zeta.
  unfold driveHistory, try_catch, http_call, get_this, throw, lift, mbind, M_bind,
    mret, M_ret. simpl.
  destruct (http _) as [r|e]; simpl; [|repeat split].
  match goal with |- context [match ?x with Ok _ => _ | Throw _ => _ end] =>
    destruct x end; simpl; repeat split.
Qed.

Lemma opt_map_inv {A} (v : value num) (f : value num -> result A) o :
  opt_map v f = Ok o ->
  match o with
  | None => nullish v = true
  | Some l => exists items, v = VArr items /\ mapM f items = Ok l
  end.
Proof.
  destruct v; simpl; try discriminate; try (now intros [= <-]).
  intros Hq. apply bind_Ok_inv in Hq as (l & Hl & [= <-]). eauto.
Qed.

Lemma cumulated_line_undated line (x : DriveHistoryLine num) :
  cumulated_line line = Ok x -> line_date x = None /\ line_rawDate x = VUndefined.
Proof.
  unfold cumulated_line. intros Hq. invert_binds Hq. injection Hq as <-. now split.
Qed.

Lemma history_line_dated line (x : DriveHistoryLine num) :
  history_line line = Ok x ->
  line_rawDate x = line ?. "drivingDate" /\
  (line_date x = None <-> ToBoolean (line ?. "drivingDate") = false).
Proof.
  unfold history_line. intros Hq.
  apply bind_Ok_inv in Hq as (x_period & Hperiod & Hq).
  apply get_Ok_inv in Hperiod as [Hline _].
  rewrite !get_Ok in Hq by assumption. simpl in Hq.
  destruct (ToBoolean (line ?. "drivingDate")).
  - simpl in Hq. destruct (parseDate _) as [d|e]; simpl in Hq; [|discriminate].
    invert_binds Hq. injection Hq as <-. simpl. split; [reflexivity|].
    split; discriminate.
  - simpl in Hq. invert_binds Hq. injection Hq as <-. simpl. now split.
Qed.

(** X16.  The lists of a drive history.  [cumulated] is undefined exactly
    when the response has no [drivingInfo]; otherwise [drivingInfo] is an
    array and [cumulated] has one line per element, none of them with a
    date.  [history] is undefined exactly when there is no
    [drivingInfoDetail]; otherwise it has one line per element, each with
    the [drivingDate] of its element as raw date and with a parsed date
    exactly when that [drivingDate] is truthy. *)
Theorem driveHistory_lines (http : HttpService num) (period : value num)
    (this this' : AustraliaVehicle num) dh :
  driveHistory http period this = (Ok dh, this') ->
  exists r,
    http (drvhistory_request this period) = Ok r /\
    let info := opt_path (resp_body r) ["resMsg"; "drivingInfo"] in
    let detail := opt_path (resp_body r) ["resMsg"; "drivingInfoDetail"] in
    match cumulated dh with
    | None => nullish info = true
    | Some l =>
        exists items, info = VArr items /\ length l = length items /\
          Forall (fun x : DriveHistoryLine num =>
                    line_date x = None /\ line_rawDate x = VUndefined) l
    end /\
    match history dh with
    | None => nullish detail = true
    | Some l =>
        exists items, detail = VArr items /\
          Forall2 (fun line (x : DriveHistoryLine num) =>
                     line_rawDate x = line ?. "drivingDate" /\
                     (line_date x = None <-> ToBoolean (line ?. "drivingDate") = false))
                  items l
    end.
Proof.
  unfold driveHistory, try_catch, http_call, get_this, throw, lift, mbind, M_bind,
    mret, M_ret. simpl.
  destruct (http _) as [r|e]; simpl; [|discriminate].
  match goal with |- context [match ?x with Ok _ => _ | Throw _ => _ end] =>
    destruct x as [dh'|e] eqn:Hq end; simpl; [|discriminate].
  intros [= <- <-]. exists r. split; [reflexivity|]. simpl.
  apply bind_Ok_inv in Hq as (resMsg & HresMsg & Hq).
  apply get_Ok_inv in HresMsg as [Hbody ->].
  apply bind_Ok_inv in Hq as (info & Hinfo & Hq).
  apply get_Ok_inv in Hinfo as [HresMsg ->].
  apply bind_Ok_inv in Hq as (x_cumulated & Hcumulated & Hq).
  apply bind_Ok_inv in Hq as (resMsg' & HresMsg' & Hq).
  apply get_Ok_inv in HresMsg' as [_ ->].
  apply bind_Ok_inv in Hq as (detail & Hdetail & Hq).
  apply get_Ok_inv in Hdetail as [_ ->].
  apply bind_Ok_inv in Hq as (x_history & Hhistory & Hq).
  injection Hq as <-. simpl.
  apply opt_map_inv in Hcumulated. apply opt_map_inv in Hhistory. split.
  - destruct x_cumulated as [l|]; [|assumption].
    destruct Hcumulated as (items & -> & Hl). exists items.
    split; [reflexivity|]. split; [eapply mapM_Ok_length, Hl|].
    eapply mapM_Ok_Forall, Hl. apply cumulated_line_undated.
  - destruct x_history as [l|]; [|assumption].
    destruct Hhistory as (items & -> & Hl). exists items.
    split; [reflexivity|]. apply mapM_Ok_Forall2 in Hl.
    eapply Forall2_impl; [exact Hl|]. intros line x. apply history_line_dated.
Qed.
End Reports.

(** The sample report: monitoring is told as true, and the lamp sent as the
    string '1' counts as lit. *)
Lemma monthlyReport_vehicleStatus_witness :
  exists rep vs,
    fst (monthlyReport (answer monthly_report_body) sample_time (ZInt 2023, ZInt 11)
           None (sample_vehicle false)) = Ok (Some rep) /\
    report_vehicleStatus rep = Some vs /\
    tpms vs <> Some false /\
    tirePressure_all vs = true.
Proof.
  eexists _, _. split; [reflexivity|]. split; [reflexivity|].
  edestruct (monthlyReport_vehicleStatus (answer monthly_report_body) sample_time
               (ZInt 2023, ZInt 11) None (sample_vehicle false))
    as (r & Hr & _ & Hnever & _ & Hstring & _); [reflexivity | reflexivity |].
  injection Hr as <-. split; [exact Hnever|].
  exact (proj2 (Hstring "1" eq_refl) eq_refl).
Defined.

(** The sample history: two dated lines are returned for the two elements,
    and the cumulated line has no date. *)
Lemma driveHistory_lines_witness :
  exists dh cumulated_lines history_lines,
    fst (driveHistory (answer drive_history_body) (num_lit 0) (sample_vehicle false)) =
      Ok dh /\
    cumulated dh = Some cumulated_lines /\
    history dh = Some history_lines /\
    Forall (fun x : DriveHistoryLine znum => line_date x = None) cumulated_lines /\
    length history_lines = 2.
Proof.
  eexists _, _, _. split; [reflexivity|]. split; [reflexivity|]. split; [reflexivity|].
  edestruct (driveHistory_lines (answer drive_history_body) (num_lit 0)
               (sample_vehicle false))
    as (r & Hr & Hcumulated & Hhistory); [reflexivity|].
  injection Hr as <-. split.
  - destruct Hcumulated as (items & _ & _ & Hlines).
    eapply Forall_impl; [exact Hlines|]. intros x Hx. exact (proj1 Hx).
  - destruct Hhistory as (items & Hitems & Hlines).
    injection Hitems as <-. symmetry. exact (Forall2_length _ _ _ Hlines).
Defined.

(** With every request answered by the sample body, [fullStatus] returns
    the value it has cached, after three requests. *)
Lemma fullStatus_never_null_witness :
  exists full h',
    fullStatus (answer full_status_body) sample_time sample_time sample_time
      (ZInt 2023, ZInt 11) default_input (sample_vehicle false, nothing_cached) =
      (Ok (Some full), h') /\
    _fullStatus (snd h') = Some full.
Proof.
  let run := eval vm_compute in
    (fullStatus (answer full_status_body) sample_time sample_time sample_time
       (ZInt 2023, ZInt 11) default_input (sample_vehicle false, nothing_cached)) in
  match run with
  | (Ok ?returned, ?h') =>
      destruct (fullStatus_never_null (answer full_status_body) sample_time sample_time
                  sample_time (ZInt 2023, ZInt 11) default_input
                  (sample_vehicle false, nothing_cached) h' returned)
        as (full & Hreturned & Hcached & _); [vm_compute; reflexivity|];
      exists full, h'; split; [rewrite <- Hreturned; vm_compute; reflexivity | exact Hcached]
  end.
Defined.

(** ** Rates and charge targets across the methods *)

Section AcrossMethods.
Context {num : Type} `{JsNumber num} `{Imports num}.

(** X17.  The methods that ask one question of the vehicle service,
    [location], [odometer], [monthlyReport] and [getChargeTargets], leave
    [serverRates] as [updateRates] sets it from the answer, whether they then
    return or throw on the body of that answer. *)
Theorem rates_follow_the_answer (http : HttpService num) (now : Date num)
    (current : num * num) (month_arg : option (num * num))
    (this : AustraliaVehicle num) (c : Cached num) :
  (forall r,
     http {| req_method := "GET"; req_url := vehicle_url this "/location/park";
             req_body := VUndefined |} = Ok r ->
     serverRates (fst (snd (location http now (this, c)))) =
       observe now r (serverRates this)) /\
  (forall r,
     http (monthlyreport_request this current) = Ok r ->
     serverRates (fst (snd (odometer http now current (this, c)))) =
       observe now r (serverRates this)) /\
  (forall r,
     http (monthlyreport_request this (default current month_arg)) = Ok r ->
     serverRates (snd (monthlyReport http now current month_arg this)) =
       observe now r (serverRates this)) /\
  (forall r,
     http {| req_method := "GET"; req_url := vehicle_url this "/charge/target";
             req_body := VUndefined |} = Ok r ->
     serverRates (snd (getChargeTargets http now this)) =
       observe now r (serverRates this)).
Proof.
  split; [|split; [|split]]; intros r Hr.
  - unfold location, try_catch_C, on_vehicle, lift_C, throw_C, cache_location,
      http_get, http_call, updateRates, get_this, mbind, MC_bind, mret, MC_ret. simpl.
    rewrite Hr. simpl. now destruct (path _ _ _).
  - unfold odometer, try_catch_C, on_vehicle, lift_C, throw_C, cache_odometer,
      http_call, updateRates, get_this, mbind, MC_bind, mret, MC_ret. simpl.
    change (monthlyreport_request _ current) with (monthlyreport_request this current).
    rewrite Hr. simpl. now destruct (result_bind _ _ _ _).
  - unfold monthlyReport, try_catch, lift, throw, http_call, updateRates, get_this,
      mbind, M_bind, mret, M_ret. simpl.
    change (monthlyreport_request _ (default current month_arg))
      with (monthlyreport_request this (default current month_arg)).
    rewrite Hr. simpl. now destruct (path _ _ _).
  - unfold getChargeTargets, try_catch, lift, throw, http_get, http_call, updateRates,
      get_this, mbind, M_bind, mret, M_ret. simpl.
    rewrite Hr. simpl. destruct (path _ _ _) as [rawData|e]; simpl; [|reflexivity].
    destruct (as_array rawData) as [items|]; simpl; [|reflexivity].
    now destruct (mapM _ _).
Qed.

(** X18.  What [setChargeTargets] posts, [getChargeTargets] reads back.  For
    two allowed limits, [setChargeTargets] issues one request; when the
    service later answers the question for the targets with the body of that
    request as [resMsg], [getChargeTargets] returns the two targets in the
    order fast, slow, each with its plug type and its level, and with an
    undefined distance. *)
Theorem chargeTargets_round_trip (http http' : HttpService num) (now now' : Date num)
    (fast slow : num) (this : AustraliaVehicle num) (r : Response num) :
  includes POSSIBLE_CHARGE_LIMIT_VALUES fast = true ->
  includes POSSIBLE_CHARGE_LIMIT_VALUES slow = true ->
  let this' := snd (setChargeTargets http now fast slow this) in
  exists posted,
    issued this' = (issued this ++ [posted])%list /\
    (http' {| req_method := "GET"; req_url := vehicle_url this' "/charge/target";
              req_body := VUndefined |} = Ok r ->
     resp_body r = VObj (<["resMsg" := req_body posted]> ∅) ->
     fst (getChargeTargets http' now' this') =
       Ok (Some [ {| soc_distance := VUndefined;
                     soc_targetLevel := VNum fast;
                     soc_type := EVChargeModeTypes_FAST |};
                  {| soc_distance := VUndefined;
                     soc_targetLevel := VNum slow;
                     soc_type := EVChargeModeTypes_SLOW |} ])).
Proof.
  intros Hfast Hslow. cbn zeta.
  exists (charge_target_request this fast slow). split.
  - unfold setChargeTargets. rewrite Hfast, Hslow. simpl.
    unfold try_catch, http_call, updateRates, get_this, throw, mbind, M_bind, mret,
      M_ret. simpl.
    now destruct (http _).
  - intros Hr Hbody.
    unfold getChargeTargets, try_catch, lift, throw, http_get, http_call, updateRates,
      get_this, mbind, M_bind, mret, M_ret. simpl.
    rewrite Hr. simpl. rewrite Hbody. unfold path, get, targetSOC. simpl.
    rewrite !lookup_insert. simpl.
    reflexivity.
Qed.
End AcrossMethods.

(** ** The dates sent to the service *)

Lemma decimal_acc_shift (s : string) (acc : Z) :
  decimal_acc acc s = (acc * 10 ^ Z.of_nat (String.length s) + decimal_value s)%Z.
Proof.
  unfold decimal_value. revert acc. induction s as [|c s IH]; intros acc.
  - simpl. lia.
  - cbn [decimal_acc String.length]. rewrite IH, (IH (10 * 0 + digit_value c)%Z).
    rewrite Nat2Z.inj_succ, Z.pow_succ_r by lia. ring.
Qed.

Lemma string_length_app (s t : string) :
  String.length (s ++ t) = (String.length s + String.length t)%nat.
Proof. induction s as [|c s IH]; simpl; [reflexivity | now rewrite IH]. Qed.

Lemma numeral_ok_inv width render z :
  numeral_ok width render z = true ->
  String.length render = width /\ all_digits render = true /\ decimal_value render = z.
Proof.
  unfold numeral_ok. rewrite !andb_true_iff, Nat.eqb_eq, Z.eqb_eq. tauto.
Qed.

Lemma numeral_ok_app w1 w2 s t a b :
  numeral_ok w1 s a = true -> numeral_ok w2 t b = true ->
  numeral_ok (w1 + w2) (s ++ t) (a * 10 ^ Z.of_nat w2 + b) = true.
Proof.
  intros Hs Ht. apply numeral_ok_inv in Hs as (Hs1 & Hs2 & Hs3).
  apply numeral_ok_inv in Ht as (Ht1 & Ht2 & Ht3).
  unfold numeral_ok. rewrite !andb_true_iff, Nat.eqb_eq, Z.eqb_eq.
  rewrite string_length_app, all_digits_app, Hs1, Hs2, Ht1, Ht2.
  repeat split. unfold decimal_value. rewrite decimal_acc_app, decimal_acc_shift.
  fold (decimal_value s). now rewrite Hs3, Ht1, Ht3.
Qed.

Lemma year_numeral (y : Z) : (1000 <= y <= 9999)%Z -> numeral_ok 4 (pretty y) y = true.
Proof.
  intros Hy.
  assert (forallb (fun y => numeral_ok 4 (pretty y) y) (seqZ 1000 9000) = true) as Hall
    by (vm_compute; reflexivity).
  rewrite forallb_forall in Hall. apply Hall, list_elem_of_In, elem_of_seqZ. lia.
Qed.

Lemma padded_numeral (m : Z) :
  (0 <= m <= 99)%Z -> numeral_ok 2 (padStart2 (pretty m)) m = true.
Proof.
  intros Hm.
  assert (forallb (fun m => numeral_ok 2 (padStart2 (pretty m)) m) (seqZ 0 100) = true)
    as Hall by (vm_compute; reflexivity).
  rewrite forallb_forall in Hall. apply Hall, list_elem_of_In, elem_of_seqZ. lia.
Qed.

Section Dates.
Context {num : Type} `{JsNumber num}.

(** X19.  The dates of the requests.  For a year of four digits and a month
    below 100, [toMonthDate] gives the six digits YYYYMM, the month padded
    to two digits.  [toDayDate] gives the same six digits when the day is
    left out or is 0, which is falsy, and otherwise, for a day below 100, the
    eight digits YYYYMMDD. *)
Theorem toDayDate_format (y m d : Z) :
  (1000 <= y <= 9999)%Z -> (0 <= m <= 99)%Z -> (0 <= d <= 99)%Z ->
  let month_only : TripDate num :=
    {| year := num_of_Z y; month := num_of_Z m; day := None |} in
  let with_day : TripDate num :=
    {| year := num_of_Z y; month := num_of_Z m; day := Some (num_of_Z d) |} in
  numeral_ok 6 (toMonthDate month_only) (100 * y + m) = true /\
  toDayDate month_only = toMonthDate month_only /\
  (d = 0%Z -> toDayDate with_day = toMonthDate month_only) /\
  (d <> 0%Z -> numeral_ok 8 (toDayDate with_day) (10000 * y + 100 * m + d) = true).
Proof.
  intros Hy Hm Hd. cbn zeta.
  assert (safe_integer y /\ safe_integer m /\ safe_integer d) as (Sy & Sm & Sd)
    by (unfold safe_integer; lia).
  assert (numeral_ok 6
            (toMonthDate {| year := num_of_Z y; month := num_of_Z m; day := None |})
            (100 * y + m) = true) as Hmonth.
  { unfold toMonthDate. simpl. rewrite !NumberToString_of_Z by assumption.
    replace (100 * y + m)%Z with (y * 10 ^ Z.of_nat 2 + m)%Z by (simpl; lia).
    apply (numeral_ok_app 4 2); [apply year_numeral | apply padded_numeral]; assumption. }
  split; [exact Hmonth|]. split; [reflexivity|].
  unfold toDayDate. simpl. rewrite num_ToBoolean_of_Z by assumption. split.
  - intros ->. reflexivity.
  - intros Hnz. apply Z.eqb_neq in Hnz. rewrite Hnz. simpl.
    rewrite NumberToString_of_Z by assumption.
    replace (10000 * y + 100 * m + d)%Z with ((100 * y + m) * 10 ^ Z.of_nat 2 + d)%Z
      by (simpl; lia).
    apply (numeral_ok_app 6 2); [exact Hmonth | now apply padded_numeral].
Qed.
End Dates.

(** 14 November 2023 is sent as 20231114, and November 2023 as 202311. *)
Lemma toDayDate_format_witness :
  toMonthDate {| year := ZInt 2023; month := ZInt 11; day := None |} = "202311" /\
  numeral_ok 8 (toDayDate november_14) 20231114 = true.
Proof.
  destruct (toDayDate_format (num := znum) 2023 11 14) as (_ & _ & _ & Hday);
    [lia | lia | lia |].
  split; [reflexivity|]. apply Hday. discriminate.
Defined.

(** ** The two mappings side by side *)

Section FlagTypes.
Context {num : Type} `{JsNumber num} `{Imports num}.
Implicit Types (body : value num).

End FlagTypes.

(** ** [odometer], [getChargeTargets] and the options of [fullStatus] *)

Section Readings.
Context {num : Type} `{JsNumber num} `{Imports num}.

(** X21.  Once the service has answered, [odometer()] returns exactly when
    the body has a [resMsg]: it then returns and caches the reading with
    unit 0, even when the reading itself is undefined.  Without [resMsg] it
    throws the managed TypeError and leaves the caches as they were. *)
Theorem odometer_returns_iff_resMsg (http : HttpService num) (now : Date num)
    (current : num * num) (this : AustraliaVehicle num) (c : Cached num) r :
  http (monthlyreport_request this current) = Ok r ->
  let resMsg := opt_path (resp_body r) ["resMsg"] in
  let reading := {| odometer_unit := num_of_Z 0;
                    odometer_value := opt_path resMsg ["odometer"] |} in
  exists this',
    odometer http now current (this, c) =
      if nullish resMsg
      then (Throw (manageBluelinkyError TypeError "AustraliaVehicle.odometer"), (this', c))
      else (Ok (Some reading),
            (this', {| _odometer := Some reading;
                       _location := _location c;
                       _fullStatus := _fullStatus c |})).
Proof.
  intros Hr. cbn zeta.
  unfold odometer, try_catch_C, on_vehicle, lift_C, throw_C, cache_odometer,
    http_call, updateRates, get_this, mbind, MC_bind, mret, MC_ret. simpl.
  change (monthlyreport_request _ current) with (monthlyreport_request this current).
  rewrite Hr. simpl.
  destruct (nullish (resp_body r)) eqn:Hbody.
  - rewrite (get_nullish (resp_body r)) by assumption. simpl.
    replace (nullish (resp_body r ?. "resMsg")) with true
      by (now destruct (resp_body r)).
    eauto.
  - rewrite (get_Ok (resp_body r)) by assumption. simpl.
    destruct (nullish (resp_body r ?. "resMsg")) eqn:HresMsg.
    + rewrite (get_nullish (resp_body r ?. "resMsg")) by assumption. simpl. eauto.
    + rewrite (get_Ok (resp_body r ?. "resMsg")) by assumption. simpl. eauto.
Qed.

Lemma target_soc_of_inv (rawSOC : value num) (t : VehicleTargetSOC num) :
  target_soc_of rawSOC = Ok t ->
  nullish rawSOC = false /\
  t = {| soc_distance := opt_path rawSOC ["drvDistance"; "distanceType"; "distanceValue"];
         soc_targetLevel := rawSOC ?. "targetSOClevel";
         soc_type := rawSOC ?. "plugType" |}.
Proof.
  unfold target_soc_of. destruct (nullish rawSOC) eqn:Hraw.
  - rewrite (path_nullish rawSOC) by assumption. discriminate.
  - rewrite path_Ok, !get_Ok by assumption. simpl. now intros [= <-].
Qed.

(** X22.  What [getChargeTargets] returns.  It returns undefined exactly
    when [resMsg?.targetSOClist] is not an array; otherwise it returns one
    target per element, in order, with the element's [plugType] as type,
    its [targetSOClevel] as level and its
    [drvDistance?.distanceType?.distanceValue] as distance, and no element
    is null or undefined. *)
Theorem getChargeTargets_shape (http : HttpService num) (now : Date num)
    (this this' : AustraliaVehicle num) returned :
  getChargeTargets http now this = (Ok returned, this') ->
  exists r,
    http {| req_method := "GET"; req_url := vehicle_url this "/charge/target";
            req_body := VUndefined |} = Ok r /\
    let rawData := opt_path (resp_body r) ["resMsg"; "targetSOClist"] in
    match returned with
    | None => as_array rawData = None
    | Some l =>
        exists items, rawData = VArr items /\
          Forall2 (fun rawSOC (t : VehicleTargetSOC num) =>
                     nullish rawSOC = false /\
                     t = {| soc_distance :=
                              opt_path rawSOC
                                ["drvDistance"; "distanceType"; "distanceValue"];
                            soc_targetLevel := rawSOC ?. "targetSOClevel";
                            soc_type := rawSOC ?. "plugType" |})
                  items l
    end.
Proof.
  unfold getChargeTargets, try_catch, lift, throw, http_get, http_call, updateRates,
    get_this, mbind, M_bind, mret, M_ret. simpl.
  destruct (http _) as [r|e]; simpl; [|discriminate].
  destruct (path _ _ _) as [rawData|e] eqn:Hpath; simpl; [|discriminate].
  unfold path in Hpath. apply bind_Ok_inv in Hpath as (resMsg & HresMsg & [= <-]).
  apply get_Ok_inv in HresMsg as [_ ->]. simpl.
  destruct (as_array _) as [items|] eqn:Harray; simpl.
  - destruct (mapM _ _) as [l|e] eqn:Hl; simpl; [|discriminate].
    intros [= <- <-]. exists r. split; [reflexivity|]. simpl. exists items. split.
    + destruct (resp_body r ?. "resMsg" ?. "targetSOClist"); try discriminate.
      now injection Harray as ->.
    + apply mapM_Ok_Forall2 in Hl. eapply Forall2_impl; [exact Hl|].
      intros rawSOC t. apply target_soc_of_inv.
  - intros [= <- <-]. exists r. split; [reflexivity|]. exact Harray.
Qed.

End Readings.

(** The sample service has a reading of 12345. *)
Lemma odometer_returns_iff_resMsg_witness :
  exists h',
    odometer (answer full_status_body) sample_time (ZInt 2023, ZInt 11)
      (sample_vehicle false, nothing_cached) =
      (Ok (Some {| odometer_unit := ZInt 0; odometer_value := num_lit 12345 |}), h').
Proof.
  edestruct (odometer_returns_iff_resMsg (answer full_status_body) sample_time
               (ZInt 2023, ZInt 11) (sample_vehicle false) nothing_cached)
    as (this' & Hrun); [reflexivity|].
  eexists. exact Hrun.
Defined.

(** The sample targets are read as two targets, fast before slow. *)
Lemma getChargeTargets_shape_witness :
  exists l,
    fst (getChargeTargets (answer charge_targets_body) sample_time (sample_vehicle false)) =
      Ok (Some l) /\
    List.map soc_targetLevel l = [num_lit 80; num_lit 100].
Proof.
  destruct (getChargeTargets_shape (answer charge_targets_body) sample_time
              (sample_vehicle false) _ _ eq_refl) as (r & Hr & items & Hitems & Hall).
  injection Hr as <-. injection Hitems as <-.
  eexists. split; [reflexivity|].
  apply Forall2_cons_1 in Hall as [[_ ->] Hall].
  apply Forall2_cons_1 in Hall as [[_ ->] _].
  reflexivity.
Defined.

(** Limits of 80 and 100 percent, set and read back. *)
Lemma chargeTargets_round_trip_witness :
  let this' := snd (setChargeTargets (answer (obj [])) sample_time (ZInt 80) (ZInt 100)
                      (sample_vehicle false)) in
  exists posted,
    issued this' = [posted] /\
    fst (getChargeTargets (answer (obj [("resMsg", req_body posted)])) sample_time this') =
      Ok (Some [ {| soc_distance := VUndefined; soc_targetLevel := num_lit 80;
                    soc_type := num_lit 0 |};
                 {| soc_distance := VUndefined; soc_targetLevel := num_lit 100;
                    soc_type := num_lit 1 |} ]).
Proof.
  cbn zeta.
  pose (q := charge_target_request (sample_vehicle false) (ZInt 80) (ZInt 100)).
  destruct (chargeTargets_round_trip (answer (obj [])) (answer (obj [("resMsg", req_body q)]))
              sample_time sample_time (ZInt 80) (ZInt 100) (sample_vehicle false)
              {| statusCode := ZInt 200; headers := Some ∅;
                 resp_body := obj [("resMsg", req_body q)] |})
    as (posted & Hissued & Hget); [reflexivity | reflexivity |].
  exists posted. split; [exact Hissued|].
  injection Hissued as <-. apply Hget; reflexivity.
Defined.
